(** * Verification of countdown-bot.js

    Shallow embedding of the Slack countdown bot: the time calculator
    [getTimeRemaining], the message formatter [formatCountdownMessage],
    the delivery client [sendToSlack] and the driver ([updateCountdown],
    the start-up code and the repeating timer). *)

From Stdlib Require Import ZArith String Ascii List Bool Lia DecimalString.
Import ListNotations.
Open Scope string_scope.

(** ** Time calculator *)

(** The record returned by [getTimeRemaining]. JS numbers are modelled as
    [Z]: every value computed below is an integer (milliseconds between two
    [Date]s, then floor divisions), exact as a double while it stays below
    2^53. *)
Record TimeRemaining := mkTimeRemaining {
  days : Z;
  hours : Z;
  minutes : Z;
  seconds : Z;
  hasStarted : bool
}.

(** [getTimeRemaining] reads the clock; the embedding takes [now] and the
    target instant (both in milliseconds since the epoch) as arguments.
    [Math.floor(a / b)] with [b > 0] is [Z.div a b]; JS [%] truncates
    towards zero, that is [Z.rem]. *)
Definition getTimeRemaining (now TARGET_DATE : Z) : TimeRemaining :=
  let difference := (TARGET_DATE - now)%Z in
  if (difference <=? 0)%Z
  then mkTimeRemaining 0 0 0 0 true
  else
    let days := (difference / (1000 * 60 * 60 * 24))%Z in
    let hours := (Z.rem difference (1000 * 60 * 60 * 24) / (1000 * 60 * 60))%Z in
    let minutes := (Z.rem difference (1000 * 60 * 60) / (1000 * 60))%Z in
    let seconds := (Z.rem difference (1000 * 60) / 1000)%Z in
    mkTimeRemaining days hours minutes seconds false.

(** [TARGET_DATE = new Date('2025-07-18T17:00:00-07:00')], in ms. *)
Definition TARGET_DATE : Z := 1752883200000%Z.

(** [UPDATE_INTERVAL], in ms. *)
Definition UPDATE_INTERVAL : Z := 60000%Z.

(** The data-model range of a remaining duration. *)
Definition valid_remaining (d : TimeRemaining) : Prop :=
  (0 <= days d)%Z /\ (0 <= hours d <= 23)%Z /\ (0 <= minutes d <= 59)%Z
  /\ (0 <= seconds d <= 59)%Z.

(** ** JS values, strings and JSON *)

(** A JS string is modelled by its UTF-8 encoding: Rocq string literals
    keep the UTF-8 bytes of the source, so ["🎉"] has four bytes. *)
Definition chr (n : nat) : string := String (ascii_of_nat n) EmptyString.

(** [String(n)] for an integer-valued JS number. *)
Definition Z_to_string (n : Z) : string :=
  NilEmpty.string_of_int (Z.to_int n).

(** [s.padStart(2, '0')]: the fill string has a single character. *)
Definition padStart2 (s : string) : string :=
  if (2 <=? String.length s)%nat then s
  else append (String.concat "" (repeat "0" (2 - String.length s))) s.

(** The JSON-like object literals built by the bot: every leaf of the
    message is a string; object keys keep their insertion order. *)
#[local] Set Warnings "-register-all".
Inductive json : Type :=
| JStr (s : string)
| JArr (l : list json)
| JObj (kvs : list (string * json)).

(** ** Message formatter *)

Definition newline : string := chr 10.

(** The [formattedTime] constant of [formatCountdownMessage]. *)
Definition formattedTime (timeRemaining : TimeRemaining) : string :=
  padStart2 (Z_to_string (hours timeRemaining)) ++ ":"
  ++ padStart2 (Z_to_string (minutes timeRemaining)) ++ ":"
  ++ padStart2 (Z_to_string (seconds timeRemaining)).

Definition formatCountdownMessage (timeRemaining : TimeRemaining) : json :=
  if hasStarted timeRemaining then
    JObj [("blocks", JArr [
      JObj [("type", JStr "section");
            ("text", JObj [("type", JStr "mrkdwn");
                           ("text", JStr "🎉 *The Dreamers in Tech Hackathon has begun!* 🎉")])]])]
  else
    JObj [("blocks", JArr [
      JObj [("type", JStr "header");
            ("text", JObj [("type", JStr "plain_text");
                           ("text", JStr "🚀 Dreamers in Tech Hackathon Countdown")])];
      JObj [("type", JStr "section");
            ("text", JObj [("type", JStr "mrkdwn");
                           ("text", JStr "*Kick-off Ceremony begins in:*")])];
      JObj [("type", JStr "section");
            ("fields", JArr [
               JObj [("type", JStr "mrkdwn");
                     ("text", JStr ("*Days*" ++ newline
                                    ++ Z_to_string (days timeRemaining)))];
               JObj [("type", JStr "mrkdwn");
                     ("text", JStr ("*Time (HH:MM:SS)*" ++ newline
                                    ++ formattedTime timeRemaining))]])];
      JObj [("type", JStr "context");
            ("elements", JArr [
               JObj [("type", JStr "mrkdwn");
                     ("text", JStr "📅 Friday, July 18 • 5pm PST / 7pm CST / 8pm EST")]])]])].

(** ** JSON.stringify *)

Definition hex_digit (n : nat) : string :=
  if (n <? 10)%nat then chr (48 + n) else chr (87 + n).

(** Escaping of one byte of a string by [JSON.stringify]: quote,
    backslash and control characters are escaped; every other byte,
    including the bytes of non-ASCII characters, is kept. *)
Definition json_escape_char (c : ascii) : string :=
  let n := nat_of_ascii c in
  if (n =? 34)%nat then "\" ++ chr 34
  else if (n =? 92)%nat then "\\"
  else if (n =? 8)%nat then "\b"
  else if (n =? 9)%nat then "\t"
  else if (n =? 10)%nat then "\n"
  else if (n =? 12)%nat then "\f"
  else if (n =? 13)%nat then "\r"
  else if (n <? 32)%nat then "\u00" ++ hex_digit (n / 16) ++ hex_digit (n mod 16)
  else String c EmptyString.

Fixpoint json_escape (s : string) : string :=
  match s with
  | EmptyString => EmptyString
  | String c s' => json_escape_char c ++ json_escape s'
  end.

Definition json_quote (s : string) : string := chr 34 ++ json_escape s ++ chr 34.

Fixpoint JSON_stringify (v : json) : string :=
  match v with
  | JStr s => json_quote s
  | JArr l =>
      "[" ++ String.concat "," (map JSON_stringify l) ++ "]"
  | JObj kvs =>
      "{" ++ String.concat ","
               (map (fun kv => json_quote (fst kv) ++ ":" ++ JSON_stringify (snd kv)) kvs)
      ++ "}"
  end.

(** [data.length]: the number of UTF-16 code units of a JS string, read off
    its UTF-8 encoding: continuation bytes count for nothing, the lead byte
    of a four-byte sequence (a character outside the BMP, a surrogate pair
    in UTF-16) counts for two, every other byte for one. *)
Fixpoint utf16_length (s : string) : nat :=
  match s with
  | EmptyString => 0
  | String c s' =>
      let b := nat_of_ascii c in
      (if (b <? 128)%nat then 1
       else if (b <? 192)%nat then 0
       else if (b <? 240)%nat then 1
       else 2) + utf16_length s'
  end.

(** The number of bytes [req.write(data)] sends: the UTF-8 encoding. *)
Definition byte_length (s : string) : nat := String.length s.

(** ** URL parsing *)

(** [new URL(SLACK_WEBHOOK_URL)] is the WHATWG URL Standard's basic URL
    parser (no base URL), as Node implements it. The embedding follows the
    parser's state machine on the UTF-8 bytes of the input; a non-ASCII code
    point only ever meets a percent-encode set (it belongs to all of them,
    and each of its bytes is encoded) or the domain-to-ASCII step. *)

(** [break_at stop s] splits [s] before its first character satisfying
    [stop]. *)
Fixpoint break_at (stop : ascii -> bool) (s : string) : string * string :=
  match s with
  | EmptyString => (EmptyString, EmptyString)
  | String c s' =>
      if stop c then (EmptyString, s)
      else let (a, b) := break_at stop s' in (String c a, b)
  end.

Fixpoint string_forallb (p : ascii -> bool) (s : string) : bool :=
  match s with
  | EmptyString => true
  | String c s' => p c && string_forallb p s'
  end.

Fixpoint is_one_of (cs : string) (c : ascii) : bool :=
  match cs with
  | EmptyString => false
  | String c' cs' => Ascii.eqb c c' || is_one_of cs' c
  end.

Fixpoint string_filter (p : ascii -> bool) (s : string) : string :=
  match s with
  | EmptyString => EmptyString
  | String c s' => if p c then String c (string_filter p s') else string_filter p s'
  end.

Fixpoint drop_while (p : ascii -> bool) (s : string) : string :=
  match s with
  | EmptyString => EmptyString
  | String c s' => if p c then drop_while p s' else s
  end.

(** Strictly splitting a string on a delimiter. *)
Fixpoint split_on (sep : ascii) (s : string) : list string :=
  match s with
  | EmptyString => [EmptyString]
  | String c s' =>
      if Ascii.eqb c sep then EmptyString :: split_on sep s'
      else match split_on sep s' with
           | [] => [String c EmptyString]
           | w :: ws => String c w :: ws
           end
  end.

Definition in_range (lo hi : nat) (c : ascii) : bool :=
  (lo <=? nat_of_ascii c)%nat && (nat_of_ascii c <=? hi)%nat.

Definition is_ascii_digit (c : ascii) : bool := in_range 48 57 c.
Definition is_ascii_upper_alpha (c : ascii) : bool := in_range 65 90 c.
Definition is_ascii_alpha (c : ascii) : bool :=
  is_ascii_upper_alpha c || in_range 97 122 c.
Definition is_ascii_alphanumeric (c : ascii) : bool :=
  is_ascii_alpha c || is_ascii_digit c.
Definition is_ascii_hex_digit (c : ascii) : bool :=
  is_ascii_digit c || in_range 65 70 c || in_range 97 102 c.
Definition is_ascii (c : ascii) : bool := (nat_of_ascii c <? 128)%nat.
Definition is_c0_control (c : ascii) : bool := (nat_of_ascii c <? 32)%nat.
Definition is_c0_control_or_space (c : ascii) : bool := (nat_of_ascii c <=? 32)%nat.
Definition is_ascii_tab_or_newline (c : ascii) : bool :=
  is_one_of (chr 9 ++ chr 10 ++ chr 13) c.
Definition is_slash (c : ascii) : bool := Ascii.eqb c "/" || Ascii.eqb c "\".

Definition ascii_lower (c : ascii) : ascii :=
  if is_ascii_upper_alpha c then ascii_of_nat (nat_of_ascii c + 32) else c.

Fixpoint ascii_lowercase (s : string) : string :=
  match s with
  | EmptyString => EmptyString
  | String c s' => String (ascii_lower c) (ascii_lowercase s')
  end.

(** Removing leading and trailing C0 controls and spaces. *)
Fixpoint strip_leading (s : string) : string :=
  match s with
  | EmptyString => EmptyString
  | String c s' => if is_c0_control_or_space c then strip_leading s' else s
  end.

Fixpoint strip_trailing (s : string) : string :=
  match s with
  | EmptyString => EmptyString
  | String c s' =>
      let t := strip_trailing s' in
      if is_c0_control_or_space c && String.eqb t "" then EmptyString
      else String c t
  end.

(** *** Percent-encoding *)

Definition in_c0_control_percent_encode_set (c : ascii) : bool :=
  is_c0_control c || (126 <? nat_of_ascii c)%nat.
Definition in_fragment_percent_encode_set (c : ascii) : bool :=
  in_c0_control_percent_encode_set c || Ascii.eqb c (ascii_of_nat 34)
  || is_one_of " <>`" c.
Definition in_query_percent_encode_set (c : ascii) : bool :=
  in_c0_control_percent_encode_set c || Ascii.eqb c (ascii_of_nat 34)
  || is_one_of " #<>" c.
Definition in_special_query_percent_encode_set (c : ascii) : bool :=
  in_query_percent_encode_set c || Ascii.eqb c "'".
(** The path percent-encode set as Node's parser has it: '^' is not in it. *)
Definition in_path_percent_encode_set (c : ascii) : bool :=
  in_query_percent_encode_set c || is_one_of "?`{}" c.

Definition hex_upper (n : nat) : ascii :=
  if (n <? 10)%nat then ascii_of_nat (48 + n) else ascii_of_nat (55 + n).

Definition percent_encode_byte (c : ascii) : string :=
  String "%" (String (hex_upper (nat_of_ascii c / 16))
                (String (hex_upper (nat_of_ascii c mod 16)) EmptyString)).

(** UTF-8 percent-encoding: every byte of a code point in the set is
    encoded (each set holds all non-ASCII code points). *)
Fixpoint utf8_percent_encode (inset : ascii -> bool) (s : string) : string :=
  match s with
  | EmptyString => EmptyString
  | String c s' =>
      (if inset c then percent_encode_byte c else String c EmptyString)
      ++ utf8_percent_encode inset s'
  end.

Definition hex_value (c : ascii) : nat :=
  let n := nat_of_ascii c in
  if is_ascii_digit c then n - 48 else if in_range 65 70 c then n - 55 else n - 87.

Fixpoint percent_decode (s : string) : string :=
  match s with
  | EmptyString => EmptyString
  | String c t =>
      if Ascii.eqb c "%" then
        match t with
        | String h1 (String h2 rest) =>
            if is_ascii_hex_digit h1 && is_ascii_hex_digit h2
            then String (ascii_of_nat (hex_value h1 * 16 + hex_value h2)) (percent_decode rest)
            else String c (percent_decode t)
        | _ => String c (percent_decode t)
        end
      else String c (percent_decode t)
  end.

(** *** Hosts *)

Definition is_forbidden_host_code_point (c : ascii) : bool :=
  let n := nat_of_ascii c in
  (n =? 0)%nat || (n =? 9)%nat || (n =? 10)%nat || (n =? 13)%nat
  || is_one_of " #/:<>?@[\]^|" c.

Definition is_forbidden_domain_code_point (c : ascii) : bool :=
  is_forbidden_host_code_point c || is_c0_control c || Ascii.eqb c "%"
  || (nat_of_ascii c =? 127)%nat.

(** The value of a string of digits in radix [r]. *)
Fixpoint radix_value (r : Z) (acc : Z) (s : string) : Z :=
  match s with
  | EmptyString => acc
  | String c s' => radix_value r (acc * r + Z.of_nat (hex_value c))%Z s'
  end.

Definition is_radix_digit (r : Z) (c : ascii) : bool :=
  if (r =? 16)%Z then is_ascii_hex_digit c
  else if (r =? 8)%Z then in_range 48 55 c
  else is_ascii_digit c.

Definition ipv4_number_parser (input : string) : option Z :=
  if String.eqb input "" then None else
  let '(r, digits) :=
    match input with
    | String z (String x rest) =>
        if Ascii.eqb z "0" then
          if Ascii.eqb x "x" || Ascii.eqb x "X" then (16%Z, rest)
          else (8%Z, String x rest)
        else (10%Z, input)
    | _ => (10%Z, input)
    end in
  if String.eqb digits "" then Some 0%Z
  else if string_forallb (is_radix_digit r) digits
  then Some (radix_value r 0 digits) else None.

Definition ends_in_a_number (input : string) : bool :=
  match rev (split_on "." input) with
  | [] => false
  | last :: earlier =>
      let last' :=
        if String.eqb last "" then
          match earlier with [] => None | l :: _ => Some l end
        else Some last in
      match last' with
      | None => false
      | Some l =>
          (negb (String.eqb l "") && string_forallb is_ascii_digit l)
          || match ipv4_number_parser l with Some _ => true | None => false end
      end
  end.

Fixpoint map_option {A B : Type} (f : A -> option B) (l : list A) : option (list B) :=
  match l with
  | [] => Some []
  | x :: xs =>
      match f x, map_option f xs with
      | Some y, Some ys => Some (y :: ys)
      | _, _ => None
      end
  end.

Fixpoint ipv4_sum (numbers : list Z) (i : Z) : Z :=
  match numbers with
  | [] => 0
  | [x] => x
  | x :: xs => (x * 256 ^ (3 - i) + ipv4_sum xs (i + 1))%Z
  end.

Definition ipv4_parser (input : string) : option Z :=
  let parts0 := split_on "." input in
  let parts :=
    match rev parts0 with
    | EmptyString :: (x :: xs) => rev (x :: xs)
    | _ => parts0
    end in
  if (4 <? length parts)%nat then None else
  match map_option ipv4_number_parser parts with
  | None => None
  | Some numbers =>
      if existsb (fun n => 255 <? n)%Z (removelast numbers) then None
      else if (256 ^ (5 - Z.of_nat (length numbers)) <=? last numbers 0)%Z then None
      else Some (ipv4_sum numbers 0)
  end.

Definition ipv4_serializer (a : Z) : string :=
  Z_to_string (a / 16777216 mod 256) ++ "." ++ Z_to_string (a / 65536 mod 256)
  ++ "." ++ Z_to_string (a / 256 mod 256) ++ "." ++ Z_to_string (a mod 256).

(** The decimal number of an IPv4 address embedded in an IPv6 one: no
    leading zero, at most 255. *)
Definition ipv6_ipv4_piece (s : string) : option (Z * string) :=
  let '(ds, rest) := break_at (fun c => negb (is_ascii_digit c)) s in
  match ds with
  | EmptyString => None
  | String z (String _ _) => if Ascii.eqb z "0" then None else
      let v := radix_value 10 0 ds in if (255 <? v)%Z then None else Some (v, rest)
  | _ => let v := radix_value 10 0 ds in Some (v, rest)
  end.

(** The trailing [a.b.c.d] of an IPv6 address, as two pieces. *)
Definition ipv6_ipv4_part (s : string) : option (Z * Z) :=
  let dot (s : string) :=
    match s with String c s' => if Ascii.eqb c "." then Some s' else None | _ => None end in
  match ipv6_ipv4_piece s with None => None | Some (a, s1) =>
  match dot s1 with None => None | Some s1' =>
  match ipv6_ipv4_piece s1' with None => None | Some (b, s2) =>
  match dot s2 with None => None | Some s2' =>
  match ipv6_ipv4_piece s2' with None => None | Some (c, s3) =>
  match dot s3 with None => None | Some s3' =>
  match ipv6_ipv4_piece s3' with None => None | Some (d, s4) =>
  if String.eqb s4 "" then Some ((a * 256 + b)%Z, (c * 256 + d)%Z) else None
  end end end end end end end.

(** The main loop of the IPv6 parser: [pieces] are the pieces before
    [pieceIndex] (a skipped piece is 0), [compress] the index after "::". *)
Fixpoint ipv6_loop (fuel : nat) (s : string) (pieces : list Z) (compress : option nat)
  : option (list Z * option nat) :=
  match fuel with
  | O => None
  | S fuel' =>
      match s with
      | EmptyString => Some (pieces, compress)
      | String c s' =>
          if (length pieces =? 8)%nat then None
          else if Ascii.eqb c ":" then
            match compress with
            | Some _ => None
            | None => ipv6_loop fuel' s' (pieces ++ [0%Z])%list (Some (S (length pieces)))
            end
          else
            let '(hex, rest) := break_at (fun c => negb (is_ascii_hex_digit c)) s in
            let hex4 := String.substring 0 4 hex in
            let rest := String.substring 4 (String.length hex - 4) hex ++ rest in
            let value := radix_value 16 0 hex4 in
            match rest with
            | EmptyString => Some ((pieces ++ [value])%list, compress)
            | String d rest' =>
                if Ascii.eqb d "." then
                  if String.eqb hex4 "" then None
                  else if (6 <? length pieces)%nat then None
                  else match ipv6_ipv4_part s with
                       | None => None
                       | Some (a, b) => Some ((pieces ++ [a; b])%list, compress)
                       end
                else if Ascii.eqb d ":" then
                  if String.eqb rest' "" then None
                  else ipv6_loop fuel' rest' (pieces ++ [value])%list compress
                else None
            end
      end
  end.

Definition ipv6_parser (input : string) : option (list Z) :=
  let start :=
    match input with
    | String c s =>
        if Ascii.eqb c ":" then
          match s with
          | String c' s' => if Ascii.eqb c' ":" then Some (s', [0%Z], Some 1%nat) else None
          | EmptyString => None
          end
        else Some (input, [], None)
    | EmptyString => Some (input, [], None)
    end in
  match start with
  | None => None
  | Some (s, pieces, compress) =>
      match ipv6_loop (S (String.length s)) s pieces compress with
      | None => None
      | Some (pieces, Some k) =>
          Some (firstn k pieces ++ repeat 0%Z (8 - length pieces) ++ skipn k pieces)%list
      | Some (pieces, None) => if (length pieces =? 8)%nat then Some pieces else None
      end
  end.

Fixpoint zero_run (l : list Z) : nat :=
  match l with
  | z :: l' => if (z =? 0)%Z then S (zero_run l') else O
  | [] => O
  end.

(** The index of the first longest run of (more than one) zero pieces. *)
Fixpoint longest_zero_run (l : list Z) (i : nat) (best : option (nat * nat))
  : option (nat * nat) :=
  match l with
  | [] => best
  | _ :: l' =>
      let r := zero_run l in
      let best' :=
        if (1 <? r)%nat then
          match best with
          | Some (_, bl) => if (bl <? r)%nat then Some (i, r) else best
          | None => Some (i, r)
          end
        else best in
      longest_zero_run l' (S i) best'
  end.

Definition hex_piece (n : Z) : string :=
  let d k := hex_digit (Z.to_nat (n / 16 ^ k mod 16)) in
  if (n <? 16)%Z then d 0%Z
  else if (n <? 256)%Z then d 1%Z ++ d 0%Z
  else if (n <? 4096)%Z then d 2%Z ++ d 1%Z ++ d 0%Z
  else d 3%Z ++ d 2%Z ++ d 1%Z ++ d 0%Z.

Fixpoint ipv6_serialize_from (l : list Z) (i : nat) (compress : option nat)
  (ignore0 : bool) : string :=
  match l with
  | [] => EmptyString
  | x :: l' =>
      if ignore0 && (x =? 0)%Z then ipv6_serialize_from l' (S i) compress true
      else if match compress with Some k => (k =? i)%nat | None => false end then
        (if (i =? 0)%nat then "::" else ":") ++ ipv6_serialize_from l' (S i) compress true
      else hex_piece x ++ (if (i =? 7)%nat then "" else ":")
           ++ ipv6_serialize_from l' (S i) compress false
  end.

Definition ipv6_serializer (a : list Z) : string :=
  ipv6_serialize_from a 0 (option_map fst (longest_zero_run a 0 None)) false.

Definition opaque_host_parser (input : string) : option string :=
  if string_forallb (fun c => negb (is_forbidden_host_code_point c)) input
  then Some (utf8_percent_encode in_c0_control_percent_encode_set input)
  else None.

(** Whether a label of the domain starts with "xn--", case-insensitively. *)
Definition has_xn_label (domain : string) : bool :=
  existsb (fun l => String.prefix "xn--" (ascii_lowercase l)) (split_on "." domain).

(** UTS #46 ToASCII (with the options the URL Standard gives it) on a
    domain that is not plain ASCII, or has a Punycode label: its mapping
    and validity tables are not modelled, so the rest of the development is
    parametric in it. On an ASCII domain without "xn--" labels the step is
    ASCII lowercasing, which the parser below computes itself. *)
Class IDNA := { uts46_to_ascii : string -> option string }.

(** An instance for closed examples: every host they parse is ASCII without
    Punycode labels, so the parser never consults it. *)
#[global] Instance idna_ascii_hosts : IDNA := {| uts46_to_ascii := fun _ => None |}.

(** *** Paths *)

Definition is_windows_drive_letter (s : string) : bool :=
  match s with
  | String a (String b EmptyString) => is_ascii_alpha a && (Ascii.eqb b ":" || Ascii.eqb b "|")
  | _ => false
  end.

Definition is_normalized_windows_drive_letter (s : string) : bool :=
  match s with
  | String a (String b EmptyString) => is_ascii_alpha a && Ascii.eqb b ":"
  | _ => false
  end.

Definition is_single_dot_segment (s : string) : bool :=
  String.eqb s "." || String.eqb (ascii_lowercase s) "%2e".

Definition is_double_dot_segment (s : string) : bool :=
  let t := ascii_lowercase s in
  String.eqb t ".." || String.eqb t ".%2e" || String.eqb t "%2e." || String.eqb t "%2e%2e".

Definition shorten (file : bool) (path : list string) : list string :=
  match path with
  | [x] => if file && is_normalized_windows_drive_letter x then path else []
  | _ => removelast path
  end.

(** The path state at a segment's end: [slash] when the segment ends with a
    separator (not at the end of the input). *)
Definition path_segment_end (file : bool) (path : list string) (buffer : string)
  (slash : bool) : list string :=
  if is_double_dot_segment buffer then
    let path' := shorten file path in if slash then path' else path' ++ [EmptyString]
  else if is_single_dot_segment buffer then
    if slash then path else path ++ [EmptyString]
  else
    let buffer' :=
      if file && (length path =? 0)%nat && is_windows_drive_letter buffer then
        match buffer with String a _ => String a ":" | EmptyString => buffer end
      else buffer in
    path ++ [buffer'].

(** The path state, up to the end of the input (a query or fragment has
    been split off before). *)
Fixpoint path_state (special file : bool) (path : list string) (buffer : string)
  (s : string) : list string :=
  match s with
  | EmptyString => path_segment_end file path buffer false
  | String c s' =>
      if Ascii.eqb c "/" || (special && Ascii.eqb c "\") then
        path_state special file (path_segment_end file path buffer true) EmptyString s'
      else
        path_state special file path
          (buffer ++ utf8_percent_encode in_path_percent_encode_set (String c EmptyString)) s'
  end.

Definition path_start_special (file : bool) (s : string) : list string :=
  match s with
  | String c s' => if is_slash c then path_state true file [] "" s' else path_state true file [] "" s
  | EmptyString => path_state true file [] "" EmptyString
  end.

Definition path_start_non_special (s : string) : list string :=
  match s with
  | EmptyString => []
  | String c s' => if Ascii.eqb c "/" then path_state false false [] "" s'
                   else path_state false false [] "" s
  end.

(** The URL path serializer. *)
Definition path_serialize (path : list string) : string :=
  String.concat "" (map (fun seg => "/" ++ seg) path).

(** *** Schemes, authority and ports *)

Fixpoint scheme_state (s : string) : option (string * string) :=
  match s with
  | EmptyString => None
  | String c s' =>
      if Ascii.eqb c ":" then Some (EmptyString, s')
      else if is_ascii_alphanumeric c || is_one_of "+-." c then
        match scheme_state s' with
        | Some (scheme, rest) => Some (String (ascii_lower c) scheme, rest)
        | None => None
        end
      else None
  end.

Definition scheme_start (s : string) : option (string * string) :=
  match s with
  | String c _ => if is_ascii_alpha c then scheme_state s else None
  | EmptyString => None
  end.

Definition special_scheme (scheme : string) : bool :=
  existsb (String.eqb scheme) ["ftp"; "file"; "http"; "https"; "ws"; "wss"].

Definition default_port (scheme : string) : option Z :=
  if String.eqb scheme "ftp" then Some 21%Z
  else if String.eqb scheme "http" || String.eqb scheme "ws" then Some 80%Z
  else if String.eqb scheme "https" || String.eqb scheme "wss" then Some 443%Z
  else None.

(** The host and port after the last '@' of the authority (the user info
    before it is dropped); [true] when the authority has an '@'. *)
Fixpoint after_last_at (s : string) : string * bool :=
  match s with
  | EmptyString => (EmptyString, false)
  | String c s' =>
      let (r, seen) := after_last_at s' in
      if seen then (r, true)
      else if Ascii.eqb c "@" then (s', true)
      else (String c r, false)
  end.

(** The host state: the host ends at the first ':' outside brackets. *)
Fixpoint split_host_port (inside : bool) (s : string) : string * option string :=
  match s with
  | EmptyString => (EmptyString, None)
  | String c s' =>
      if Ascii.eqb c ":" && negb inside then (EmptyString, Some s')
      else
        let inside' :=
          if Ascii.eqb c "[" then true else if Ascii.eqb c "]" then false else inside in
        let (h, p) := split_host_port inside' s' in (String c h, p)
  end.

(** The port state: digits only, at most 65535; the scheme's default port
    is dropped. *)
Definition port_state (scheme : string) (port : string) : option (option Z) :=
  if string_forallb is_ascii_digit port then
    if String.eqb port "" then Some None
    else
      let n := radix_value 10 0 port in
      if (65535 <? n)%Z then None
      else match default_port scheme with
           | Some d => if (d =? n)%Z then Some None else Some (Some n)
           | None => Some (Some n)
           end
  else None.

Section Program.

Context {idna : IDNA}.

(** Domain to ASCII, with beStrict false: on an ASCII domain without a
    label starting with "xn--" it is ASCII lowercasing. *)
Definition domain_to_ascii (domain : string) : option string :=
  let result :=
    if string_forallb is_ascii domain && negb (has_xn_label domain)
    then Some (ascii_lowercase domain)
    else @uts46_to_ascii idna domain in
  match result with
  | None => None
  | Some r => if String.eqb r "" then None else Some r
  end.

(** The host parser, with the host serializer applied to its result. *)
Definition host_parser (input : string) (isOpaque : bool) : option string :=
  if String.prefix "[" input then
    if (2 <=? String.length input)%nat
       && String.eqb (String.substring (String.length input - 1) 1 input) "]"
    then option_map (fun a => "[" ++ ipv6_serializer a ++ "]")
           (ipv6_parser (String.substring 1 (String.length input - 2) input))
    else None
  else if isOpaque then opaque_host_parser input
  else
    match domain_to_ascii (percent_decode input) with
    | None => None
    | Some asciiDomain =>
        if negb (string_forallb (fun c => negb (is_forbidden_domain_code_point c)) asciiDomain)
        then None
        else if ends_in_a_number asciiDomain
        then option_map ipv4_serializer (ipv4_parser asciiDomain)
        else Some asciiDomain
    end.

(** The authority state, then the host and port states: the serialized
    host, the port and the rest of the input. *)
Definition authority_state (special : bool) (scheme : string) (s : string)
  : option (string * option Z * string) :=
  let '(auth, rest) :=
    break_at (fun c => is_one_of "/?#" c || (special && Ascii.eqb c "\")) s in
  let '(hostport, atSignSeen) := after_last_at auth in
  if atSignSeen && String.eqb hostport "" then None else
  match split_host_port false hostport with
  | (buffer, Some port) =>
      if String.eqb buffer "" then None else
      match host_parser buffer (negb special), port_state scheme port with
      | Some host, Some p => Some (host, p, rest)
      | _, _ => None
      end
  | (buffer, None) =>
      if special && String.eqb buffer "" then None else
      match host_parser buffer (negb special) with
      | Some host => Some (host, None, rest)
      | None => None
      end
  end.

(** The file host state. *)
Definition file_host_state (s : string) : option (string * list string) :=
  let '(buffer, rest) := break_at (is_one_of "/\?#") s in
  if is_windows_drive_letter buffer then Some (EmptyString, path_state true true [] buffer rest)
  else if String.eqb buffer "" then Some (EmptyString, path_start_special true rest)
  else match host_parser buffer false with
       | None => None
       | Some host =>
           Some (if String.eqb host "localhost" then EmptyString else host,
                 path_start_special true rest)
       end.

(** The file state and the file slash state. *)
Definition file_state (s : string) : option (string * list string) :=
  match s with
  | String c s' =>
      if is_slash c then
        match s' with
        | String c2 s'' =>
            if is_slash c2 then file_host_state s''
            else Some (EmptyString, path_state true true [] "" s')
        | EmptyString => Some (EmptyString, path_state true true [] "" EmptyString)
        end
      else Some (EmptyString, path_state true true [] "" s)
  | EmptyString => Some (EmptyString, path_state true true [] "" EmptyString)
  end.

(** Everything before the query and the fragment: the scheme, the
    serialized host ([hostname]), the port and the serialized path
    ([pathname]). *)
Definition url_before_query (input : string) : option (string * string * option Z * string) :=
  match scheme_start input with
  | None => None
  | Some (scheme, rest) =>
      if String.eqb scheme "file" then
        match file_state rest with
        | Some (host, path) => Some (scheme, host, None, path_serialize path)
        | None => None
        end
      else if special_scheme scheme then
        match authority_state true scheme (drop_while is_slash rest) with
        | Some (host, port, rest') =>
            Some (scheme, host, port, path_serialize (path_start_special false rest'))
        | None => None
        end
      else
        match rest with
        | String c s' =>
            if Ascii.eqb c "/" then
              match s' with
              | String c2 s'' =>
                  if Ascii.eqb c2 "/" then
                    match authority_state false scheme s'' with
                    | Some (host, port, rest') =>
                        Some (scheme, host, port, path_serialize (path_start_non_special rest'))
                    | None => None
                    end
                  else Some (scheme, EmptyString, None, path_serialize (path_state false false [] "" s'))
              | EmptyString =>
                  Some (scheme, EmptyString, None, path_serialize (path_state false false [] "" EmptyString))
              end
            else Some (scheme, EmptyString, None,
                       utf8_percent_encode in_c0_control_percent_encode_set rest)
        | EmptyString => Some (scheme, EmptyString, None, EmptyString)
        end
  end.

(** The fields of a [URL] object the bot can read, as its getters return
    them. *)
Record URL := mkURL {
  protocol : string;
  hostname : string;
  port : string;
  pathname : string;
  search : string;
  hash : string
}.

(** [new URL(input)] ([None]: the constructor throws a TypeError). The
    query and the fragment start at the first '?' or '#', whatever the
    state: every state before them ends there. *)
Definition new_URL (input : string) : option URL :=
  let input := string_filter (fun c => negb (is_ascii_tab_or_newline c))
                 (strip_trailing (strip_leading input)) in
  let '(before, after) := break_at (is_one_of "?#") input in
  match url_before_query before with
  | None => None
  | Some (scheme, host, port, path) =>
      let '(query, fragment) :=
        match after with
        | String c s =>
            if Ascii.eqb c "?" then
              let '(q, f) := break_at (Ascii.eqb "#") s in
              (Some q, match f with String _ f' => Some f' | EmptyString => None end)
            else (None, Some s)
        | EmptyString => (None, None)
        end in
      let queryPercentEncodeSet :=
        if special_scheme scheme then in_special_query_percent_encode_set
        else in_query_percent_encode_set in
      let prefixed (c : string) (o : option string) :=
        match o with
        | None | Some EmptyString => EmptyString
        | Some v => c ++ v
        end in
      Some (mkURL (scheme ++ ":") host
              (match port with Some n => Z_to_string n | None => EmptyString end)
              path
              (prefixed "?" (option_map (utf8_percent_encode queryPercentEncodeSet) query))
              (prefixed "#" (option_map (utf8_percent_encode in_fragment_percent_encode_set) fragment)))
  end.

(** ** Delivery client *)

(** Header values: Node sends a number as its decimal text. *)
Inductive header_value : Type :=
| HStr (s : string)
| HNum (n : Z).

(** The request [https.request(options)] issues, with the bytes written by
    [req.write(data)]. *)
Record request := mkRequest {
  req_hostname : string;
  req_path : string;
  req_method : string;
  req_headers : list (string * header_value);
  req_body : string
}.

(** What the network does with the request: an ['error'] event on the
    request, or a response with its status code and its body chunks. *)
Inductive net_result : Type :=
| NetError (cause : string)
| NetResponse (statusCode : Z) (chunks : list string).

(** Values the promise of [sendToSlack] can reject with. *)
Inductive js_error : Type :=
| Error (message : string)            (* new Error(message) *)
| InvalidURLError (input : string)    (* the TypeError thrown by new URL(input) *)
| UnescapedCharactersError            (* ERR_UNESCAPED_CHARACTERS, thrown by https.request *)
| NodeError (cause : string).         (* the error of the 'error' event *)

Inductive outcome : Type :=
| Resolved (v : string)
| Rejected (e : js_error).

(** Console output. *)
Inductive log_line : Type :=
| Log (s : string)                          (* console.log(s) *)
| LogError (s : string)                     (* console.error(s) *)
| LogErrorValue (s : string) (e : js_error).  (* console.error(s, e) *)

(** The check [https.request] makes of [options.path] before anything is
    sent (Node's INVALID_PATH_REGEX, /[^\u0021-\u00ff]/): every code point
    lies in U+0021..U+00FF. On the UTF-8 bytes: ASCII from '!' on, the lead
    bytes C2 and C3 of U+0080..U+00FF and continuation bytes; every other
    code point has a lead byte from E0 up. *)
Definition valid_request_path (path : string) : bool :=
  string_forallb (in_range 33 195) path.

(** The synchronous part of [sendToSlack]: serialize, parse the URL, build
    the options and issue the request. [None]: [new URL] or [https.request]
    threw inside the promise executor, no request is made. The record holds
    the options as passed: with an empty [hostname] Node connects to
    localhost, and the port is always 443, the default of [https]. *)
Definition sendToSlack_request (SLACK_WEBHOOK_URL : string) (message : json)
  : option request :=
  let data := JSON_stringify message in
  match new_URL SLACK_WEBHOOK_URL with
  | None => None
  | Some url =>
      if valid_request_path (pathname url) then
        Some (mkRequest (hostname url) (pathname url) "POST"
                [("Content-Type", HStr "application/json");
                 ("Content-Length", HNum (Z.of_nat (utf16_length data)))]
                data)
      else None
  end.

(** The response and error handlers of [sendToSlack]. *)
Definition sendToSlack_settle (net : net_result) : list log_line * outcome :=
  match net with
  | NetError error =>
      ([LogErrorValue "Error sending to Slack:" (NodeError error)],
       Rejected (NodeError error))
  | NetResponse statusCode chunks =>
      let responseData := fold_left append chunks "" in
      if (statusCode =? 200)%Z then
        ([Log "Successfully sent countdown update to Slack"],
         Resolved responseData)
      else
        ([LogError ("Slack API error: " ++ Z_to_string statusCode ++ " - "
                    ++ responseData)],
         Rejected (Error ("Slack API returned status "
                          ++ Z_to_string statusCode)))
  end.

(** [sendToSlack(message)] with the configured URL, given what the network
    does: the request issued, the console output and how the promise
    settles. *)
Definition sendToSlack (SLACK_WEBHOOK_URL : string) (message : json)
  (net : net_result) : option request * list log_line * outcome :=
  match sendToSlack_request SLACK_WEBHOOK_URL message with
  | None =>
      (None, [],
       Rejected (match new_URL SLACK_WEBHOOK_URL with
                 | None => InvalidURLError SLACK_WEBHOOK_URL
                 | Some _ => UnescapedCharactersError
                 end))
  | Some req => let (logs, o) := sendToSlack_settle net in (Some req, logs, o)
  end.

Definition header (h : string) (req : request) : option header_value :=
  match find (fun kv => String.eqb (fst kv) h) (req_headers req) with
  | Some kv => Some (snd kv)
  | None => None
  end.

(** Two decimal digits of [n], for [0 <= n <= 99]. *)
Definition two_digits (n : Z) : string :=
  chr (48 + Z.to_nat (n / 10)) ++ chr (48 + Z.to_nat (n mod 10)).

(** ** Driver *)

(** Observable effects of the process, in order. *)
Inductive event : Type :=
| ECalc (now : Z)                (* getTimeRemaining() reads the clock *)
| EFormat                        (* formatCountdownMessage() *)
| ERequest (r : option request)  (* sendToSlack(): the request issued *)
| EOut (l : log_line)            (* console output *)
| EExit (code : Z).              (* process.exit(code) *)

Definition is_pipeline_event (e : event) : bool :=
  match e with
  | ECalc _ | EFormat | ERequest _ => true
  | EOut _ | EExit _ => false
  end.

(** The process: the configured webhook URL, whether [countdownInterval]
    is still active, the ticks suspended at [await sendToSlack(message)]
    (their [timeRemaining] and [message]), the status passed to
    [process.exit] once it ran, the number of ticks started, and the
    trace. *)
Record Proc := mkProc {
  webhook : string;
  armed : bool;
  inflight : list (TimeRemaining * json);
  exited : option Z;
  ticks : nat;
  trace : list event
}.

(** What the event loop delivers to the process. *)
Inductive input : Type :=
| TimerFires (now : Z)               (* setInterval callback *)
| Settles (i : nat) (net : net_result) (* the i-th pending request ends *)
| SIGINT.

Fixpoint remove_nth {A : Type} (i : nat) (l : list A) : list A :=
  match l, i with
  | [], _ => []
  | _ :: l', O => l'
  | x :: l', S i' => x :: remove_nth i' l'
  end.

(** [updateCountdown()] up to [await sendToSlack(message)]. *)
Definition updateCountdown_start (now : Z) (p : Proc) : Proc :=
  let timeRemaining := getTimeRemaining now TARGET_DATE in
  let message := formatCountdownMessage timeRemaining in
  mkProc (webhook p) (armed p) (inflight p ++ [(timeRemaining, message)])
         (exited p) (S (ticks p))
         (trace p ++ [ECalc now; EFormat;
                      ERequest (sendToSlack_request (webhook p) message)]).

(** The rest of [updateCountdown()] once the promise of [sendToSlack]
    settles: stop the interval when the event has started, or log the
    error in the [catch] block. *)
Definition updateCountdown_resume (tick : TimeRemaining * json)
  (net : net_result) (p : Proc) : Proc :=
  let (timeRemaining, message) := tick in
  let '(_, logs, o) := sendToSlack (webhook p) message net in
  match o with
  | Resolved _ =>
      if hasStarted timeRemaining then
        mkProc (webhook p) false (inflight p) (exited p) (ticks p)
          (trace p ++ map EOut logs
                   ++ [EOut (Log "Event has started! Stopping countdown updates.")])
      else
        mkProc (webhook p) (armed p) (inflight p) (exited p) (ticks p)
          (trace p ++ map EOut logs)
  | Rejected error =>
      mkProc (webhook p) (armed p) (inflight p) (exited p) (ticks p)
        (trace p ++ map EOut logs
                 ++ [EOut (LogErrorValue "Failed to update countdown:" error)])
  end.

(** The process is over: [process.exit] ran, or nothing keeps Node's
    event loop alive any more, the interval being cleared and no request
    pending (the 'SIGINT' listener does not hold the loop, and an idle
    keep-alive socket is unreferenced); Node then exits with status 0. *)
Definition ended (p : Proc) : bool :=
  match exited p with
  | Some _ => true
  | None => negb (armed p) && (length (inflight p) =? 0)%nat
  end.

Definition step (p : Proc) (inp : input) : Proc :=
  if ended p then p else
  match inp with
  | TimerFires now => if armed p then updateCountdown_start now p else p
  | Settles i net =>
      match nth_error (inflight p) i with
      | None => p
      | Some tick =>
          updateCountdown_resume tick net
            (mkProc (webhook p) (armed p) (remove_nth i (inflight p))
                    (exited p) (ticks p) (trace p))
      end
  | SIGINT =>
      mkProc (webhook p) false (inflight p) (Some 0%Z) (ticks p)
        (trace p ++ [EOut (Log (newline ++ "Shutting down countdown bot..."));
                     EExit 0])
  end.

Definition run (inputs : list input) (p : Proc) : Proc := fold_left step inputs p.

(** [`${TARGET_DATE}`]: [Date.prototype.toString], in the local time zone
    of the host (here a Pacific one). *)
Definition target_date_text : string :=
  "Fri Jul 18 2025 17:00:00 GMT-0700 (Pacific Daylight Time)".

(** The top level of the script, with [process.env.SLACK_WEBHOOK_URL]
    ([None] when unset): validation, start-up logs, the immediate call of
    [updateCountdown()], then [setInterval]. *)
Definition startup (env : option string) (now : Z) : Proc :=
  let fail :=
    mkProc "" false [] (Some 1%Z) 0
      [EOut (LogError "ERROR: SLACK_WEBHOOK_URL environment variable is not set");
       EOut (LogError "Please set it to your Slack incoming webhook URL");
       EExit 1] in
  match env with
  | None => fail
  | Some SLACK_WEBHOOK_URL =>
      if String.eqb SLACK_WEBHOOK_URL "" then fail
      else
        let p0 := mkProc SLACK_WEBHOOK_URL false [] None 0
          [EOut (Log "Starting Dreamers in Tech Hackathon countdown bot...");
           EOut (Log ("Target date: " ++ target_date_text));
           EOut (Log ("Update interval: " ++ Z_to_string (UPDATE_INTERVAL / 1000)
                      ++ " seconds"))] in
        let p1 := updateCountdown_start now p0 in
        mkProc (webhook p1) true (inflight p1) (exited p1) (ticks p1) (trace p1)
  end.

Definition slack_url : string := "https://hooks.slack.com/services/T000/B000/XXXX".


(** ** Auxiliary definitions for the properties below *)

(** The whole seconds a [TimeRemaining] stands for. *)
Definition total_seconds (r : TimeRemaining) : Z :=
  (days r * 86400 + hours r * 3600 + minutes r * 60 + seconds r)%Z.

(** Bytes sent minus the [data.length] announced. *)
Definition delta (s : string) : Z :=
  (Z.of_nat (byte_length s) - Z.of_nat (utf16_length s))%Z.

Fixpoint json_delta (v : json) : Z :=
  match v with
  | JStr s => delta s
  | JArr l => fold_right (fun x acc => (json_delta x + acc)%Z) 0%Z l
  | JObj kvs =>
      fold_right (fun kv acc => (delta (fst kv) + json_delta (snd kv) + acc)%Z) 0%Z kvs
  end.


Definition is_sigint (inp : input) : bool :=
  match inp with SIGINT => true | _ => false end.

Definition issues_no_request (e : event) : bool :=
  match e with ERequest (Some _) => false | _ => true end.

Definition bad_url_invariant (url : string) (p : Proc) : Prop :=
  webhook p = url /\ (exited p = None -> armed p = true)
  /\ forallb issues_no_request (trace p) = true.

(** A host the host parser returns lowercased and otherwise unchanged:
    printable ASCII, no forbidden domain code point, no IDNA label and not
    an IPv4 address. *)
Definition plain_host (host : string) : bool :=
  negb (String.eqb host "")
  && string_forallb (fun c => in_range 33 126 c && negb (is_forbidden_domain_code_point c)) host
  && negb (has_xn_label host)
  && negb (ends_in_a_number (ascii_lowercase host)).

Definition not_dot_segment (seg : string) : bool :=
  negb (is_single_dot_segment seg || is_double_dot_segment seg).

(** A path the path state keeps as it is: empty or starting with '/', no
    byte of the path percent-encode set, no backslash and no dot segment. *)
Definition plain_path (path : string) : bool :=
  (String.eqb path "" || String.prefix "/" path)
  && string_forallb (fun c => negb (in_path_percent_encode_set c || Ascii.eqb c "\")) path
  && forallb not_dot_segment (split_on "/" path).

(** ** Theorems *)

Example getTimeRemaining_scenario1 :
  getTimeRemaining 0 (2 * 86400000 + 3 * 3600000 + 4 * 60000 + 5 * 1000)
  = mkTimeRemaining 2 3 4 5 false.
Proof. reflexivity. Qed.

Lemma getTimeRemaining_started (now target : Z) :
  hasStarted (getTimeRemaining now target) = true <-> (target - now <= 0)%Z.
Proof.
  unfold getTimeRemaining; cbv zeta.
  destruct (Z.leb_spec (target - now) 0); simpl; split; intros; try lia;
    congruence.
Qed.

(** C1: when [target - now <= 0] the result is all zeros with
    [hasStarted = true]; whenever [hasStarted] is true all numeric fields
    are zero; and one millisecond before the target the result is not
    started with all four fields zero. *)
Theorem getTimeRemaining_reached (now target : Z) :
  ((target - now <= 0)%Z ->
     getTimeRemaining now target = mkTimeRemaining 0 0 0 0 true)
  /\ (hasStarted (getTimeRemaining now target) = true ->
       days (getTimeRemaining now target) = 0%Z
       /\ hours (getTimeRemaining now target) = 0%Z
       /\ minutes (getTimeRemaining now target) = 0%Z
       /\ seconds (getTimeRemaining now target) = 0%Z)
  /\ getTimeRemaining (target - 1) target = mkTimeRemaining 0 0 0 0 false.
Proof.
  split; [|split].
  - intro H. unfold getTimeRemaining; cbv zeta.
    destruct (Z.leb_spec (target - now) 0); [reflexivity | lia].
  - intro H. apply getTimeRemaining_started in H.
    unfold getTimeRemaining; cbv zeta.
    destruct (Z.leb_spec (target - now) 0); [simpl; auto | lia].
  - unfold getTimeRemaining; cbv zeta.
    replace (target - (target - 1))%Z with 1%Z by lia. reflexivity.
Qed.

(** C2: for [now < target], [hasStarted] is false, the fields are the
    standard decomposition of the difference, lie in their ranges, and
    recombine to the difference truncated to whole seconds. *)
Theorem getTimeRemaining_decomposition (now target : Z) :
  (now < target)%Z ->
  let D := (target - now)%Z in
  let r := getTimeRemaining now target in
  hasStarted r = false
  /\ days r = (D / 86400000)%Z
  /\ hours r = (D mod 86400000 / 3600000)%Z
  /\ minutes r = (D mod 3600000 / 60000)%Z
  /\ seconds r = (D mod 60000 / 1000)%Z
  /\ (0 <= days r)%Z /\ (0 <= hours r <= 23)%Z
  /\ (0 <= minutes r <= 59)%Z /\ (0 <= seconds r <= 59)%Z
  /\ (days r * 86400000 + hours r * 3600000 + minutes r * 60000
      + seconds r * 1000 = (D / 1000) * 1000)%Z.
Proof.
  intros H D r. subst r.
  unfold getTimeRemaining; cbv zeta.
  destruct (Z.leb_spec (target - now) 0) as [Hle|Hgt]; [lia|].
  fold D. simpl.
  assert (HD : (0 < D)%Z) by (unfold D; lia). clear Hgt H.
  rewrite !Z.rem_mod_nonneg by lia.
  repeat split; try reflexivity;
    try (apply Z.div_pos; [apply Z.mod_pos_bound|]; lia);
    try (apply Z.div_pos; lia).
  - enough (D mod 86400000 / 3600000 < 24)%Z by lia.
    apply Z.div_lt_upper_bound; [lia|].
    pose proof (Z.mod_pos_bound D 86400000). lia.
  - enough (D mod 3600000 / 60000 < 60)%Z by lia.
    apply Z.div_lt_upper_bound; [lia|].
    pose proof (Z.mod_pos_bound D 3600000). lia.
  - enough (D mod 60000 / 1000 < 60)%Z by lia.
    apply Z.div_lt_upper_bound; [lia|].
    pose proof (Z.mod_pos_bound D 60000). lia.
  - pose proof (Z.div_mod D 86400000 ltac:(lia)) as E1.
    pose proof (Z.div_mod (D mod 86400000) 3600000 ltac:(lia)) as E2.
    pose proof (Z.div_mod D 1000 ltac:(lia)) as E5.
    assert (M1 : (D mod 86400000 mod 3600000 = D mod 3600000)%Z).
    { rewrite (Z.mod_mod_divide D (86400000) 3600000); [reflexivity|].
      exists 24%Z; reflexivity. }
    assert (M2 : (D mod 3600000 = 60000 * (D mod 3600000 / 60000)
                  + D mod 60000)%Z).
    { rewrite (Z.div_mod (D mod 3600000) 60000) at 1 by lia.
      f_equal. rewrite (Z.mod_mod_divide D 3600000 60000); [reflexivity|].
      exists 60%Z; reflexivity. }
    assert (M3 : (D mod 60000 = 1000 * (D mod 60000 / 1000)
                  + D mod 1000)%Z).
    { rewrite (Z.div_mod (D mod 60000) 1000) at 1 by lia.
      f_equal. rewrite (Z.mod_mod_divide D 60000 1000); [reflexivity|].
      exists 60%Z; reflexivity. }
    rewrite M1 in E2. lia.
Qed.

Lemma getTimeRemaining_decomposition_witness :
  (0 < 93845999)%Z /\ hasStarted (getTimeRemaining 0 93845999) = false.
Proof.
  split; [lia|].
  exact (proj1 (getTimeRemaining_decomposition 0 93845999 ltac:(lia))).
Defined.

Lemma getTimeRemaining_reached_witness :
  getTimeRemaining 1752883260000 TARGET_DATE = mkTimeRemaining 0 0 0 0 true.
Proof.
  exact (proj1 (getTimeRemaining_reached 1752883260000 TARGET_DATE)
           ltac:(unfold TARGET_DATE; lia)).
Defined.

Lemma padStart2_two_digits_check :
  forallb (fun n => String.eqb (padStart2 (Z_to_string n)) (two_digits n))
          (map Z.of_nat (seq 0 100)) = true.
Proof. vm_compute. reflexivity. Qed.

Lemma padStart2_two_digits (n : Z) :
  (0 <= n <= 99)%Z -> padStart2 (Z_to_string n) = two_digits n.
Proof.
  intros Hn.
  pose proof padStart2_two_digits_check as H.
  rewrite forallb_forall in H.
  apply String.eqb_eq, H.
  replace n with (Z.of_nat (Z.to_nat n)) by lia.
  apply in_map, in_seq. lia.
Qed.

(** C3: a started duration is formatted as one celebratory section block;
    any other duration of the data-model range as the fixed header, the
    introductory line, the row of the days (as decimal text) and of the
    time of day as HH:MM:SS with two digits per component, and the fixed
    footer; {2, 3, 4, 5, not started} gives the time string "03:04:05". *)
Theorem formatCountdownMessage_layout (d : TimeRemaining) :
  valid_remaining d ->
  (hasStarted d = true ->
   formatCountdownMessage d =
   JObj [("blocks", JArr [
     JObj [("type", JStr "section");
           ("text", JObj [("type", JStr "mrkdwn");
                          ("text", JStr "🎉 *The Dreamers in Tech Hackathon has begun!* 🎉")])]])])
  /\ (hasStarted d = false ->
   formatCountdownMessage d =
   JObj [("blocks", JArr [
     JObj [("type", JStr "header");
           ("text", JObj [("type", JStr "plain_text");
                          ("text", JStr "🚀 Dreamers in Tech Hackathon Countdown")])];
     JObj [("type", JStr "section");
           ("text", JObj [("type", JStr "mrkdwn");
                          ("text", JStr "*Kick-off Ceremony begins in:*")])];
     JObj [("type", JStr "section");
           ("fields", JArr [
              JObj [("type", JStr "mrkdwn");
                    ("text", JStr ("*Days*" ++ newline ++ Z_to_string (days d)))];
              JObj [("type", JStr "mrkdwn");
                    ("text", JStr ("*Time (HH:MM:SS)*" ++ newline
                                   ++ two_digits (hours d) ++ ":"
                                   ++ two_digits (minutes d) ++ ":"
                                   ++ two_digits (seconds d)))]])];
     JObj [("type", JStr "context");
           ("elements", JArr [
              JObj [("type", JStr "mrkdwn");
                    ("text", JStr "📅 Friday, July 18 • 5pm PST / 7pm CST / 8pm EST")]])]])])
  /\ formattedTime (mkTimeRemaining 2 3 4 5 false) = "03:04:05".
Proof.
  intros (Hd & Hh & Hm & Hs).
  split; [|split].
  - intros Hst. unfold formatCountdownMessage. rewrite Hst. reflexivity.
  - intros Hst. unfold formatCountdownMessage, formattedTime. rewrite Hst.
    rewrite !padStart2_two_digits by lia. reflexivity.
  - reflexivity.
Qed.

Lemma formatCountdownMessage_layout_witness :
  valid_remaining (mkTimeRemaining 2 3 4 5 false)
  /\ formattedTime (mkTimeRemaining 2 3 4 5 false) = "03:04:05".
Proof.
  assert (Hv : valid_remaining (mkTimeRemaining 2 3 4 5 false))
    by (unfold valid_remaining; simpl; lia).
  split; [exact Hv|].
  exact (proj2 (proj2 (formatCountdownMessage_layout _ Hv))).
Defined.

(** C9: the formatter is a function of its argument alone: two calls with
    the same duration give structurally identical payloads, and so the same
    serialized JSON. *)
Theorem formatCountdownMessage_deterministic (d d' : TimeRemaining) :
  d = d' ->
  formatCountdownMessage d = formatCountdownMessage d'
  /\ JSON_stringify (formatCountdownMessage d)
     = JSON_stringify (formatCountdownMessage d').
Proof. intros ->. split; reflexivity. Qed.

Lemma formatCountdownMessage_deterministic_witness :
  formatCountdownMessage (getTimeRemaining 0 93845000)
  = formatCountdownMessage (mkTimeRemaining 1 2 4 5 false).
Proof.
  apply (formatCountdownMessage_deterministic
           (getTimeRemaining 0 93845000) (mkTimeRemaining 1 2 4 5 false)).
  vm_compute. reflexivity.
Defined.

(** ** Delivery client: lemmas *)

Lemma str_append_nil_r (s : string) : s ++ "" = s.
Proof. induction s as [|c s IH]; simpl; [reflexivity | now rewrite IH]. Qed.

Lemma str_append_assoc (a b c : string) : (a ++ b) ++ c = a ++ (b ++ c).
Proof. induction a as [|x a IH]; simpl; [reflexivity | now rewrite IH]. Qed.

Lemma fold_left_append (chunks : list string) (acc : string) :
  fold_left append chunks acc = acc ++ String.concat "" chunks.
Proof.
  revert acc. induction chunks as [|c chunks IH]; intros acc; simpl.
  - now rewrite str_append_nil_r.
  - rewrite IH. destruct chunks; simpl.
    + now rewrite !str_append_nil_r.
    + now rewrite str_append_assoc.
Qed.

Lemma break_at_skip (p : ascii -> bool) (s t : string) :
  string_forallb (fun c => negb (p c)) s = true ->
  break_at p (s ++ t) = (s ++ fst (break_at p t), snd (break_at p t)).
Proof.
  induction s as [|c s IH]; simpl; intros H.
  - now destruct (break_at p t).
  - apply andb_prop in H as [Hc Hs]. apply negb_true_iff in Hc.
    rewrite Hc, IH by exact Hs. reflexivity.
Qed.

Lemma break_at_stop (p : ascii -> bool) (c : ascii) (t : string) :
  p c = true -> break_at p (String c t) = (EmptyString, String c t).
Proof. simpl. now intros ->. Qed.

Lemma string_forallb_mono (p q : ascii -> bool) (s : string) :
  string_forallb p s = true -> (forall c, p c = true -> q c = true) ->
  string_forallb q s = true.
Proof.
  intros H Hpq. induction s as [|c s IH]; simpl in *; [reflexivity|].
  apply andb_prop in H as [Hc Hs]. now rewrite Hpq, IH.
Qed.


(** ** URL parser: examples *)

(** The reference cases of the URL Standard the bot's URL may meet. *)
Example new_URL_normalizes_host_and_path :
  option_map (fun u => (hostname u, pathname u, search u))
    (new_URL "https://HOOKS.SLACK.COM/a b?x=1")
  = Some ("hooks.slack.com", "/a%20b", "?x=1").
Proof. vm_compute. reflexivity. Qed.

Example new_URL_special_without_slashes :
  option_map (fun u => (hostname u, pathname u))
    (new_URL "https:hooks.slack.com/services/T000/B000/XXXX")
  = Some ("hooks.slack.com", "/services/T000/B000/XXXX")
  /\ option_map (fun u => (hostname u, pathname u)) (new_URL "https:///x")
  = Some ("x", "/").
Proof. vm_compute. split; reflexivity. Qed.

Example new_URL_opaque_path :
  option_map (fun u => (protocol u, hostname u, pathname u)) (new_URL "mailto:foo")
  = Some ("mailto:", "", "foo").
Proof. vm_compute. reflexivity. Qed.

Example new_URL_ports :
  option_map port (new_URL "https://hooks.slack.com:443/x") = Some ""
  /\ option_map port (new_URL "https://hooks.slack.com:8443/x") = Some "8443"
  /\ new_URL "https://hooks.slack.com:abc/x" = None
  /\ new_URL "https://hooks.slack.com:65536/x" = None.
Proof. vm_compute. repeat split. Qed.

Example new_URL_rejects_forbidden_host :
  new_URL "https://a b/" = None /\ new_URL "https://a%2fb/" = None.
Proof. vm_compute. repeat split. Qed.

Example new_URL_userinfo_dots_and_ipv4 :
  option_map (fun u => (hostname u, pathname u))
    (new_URL "https://user:pw@Example.com/a/./b/../%2E%2e/c")
  = Some ("example.com", "/c")
  /\ option_map hostname (new_URL "https://0x7f.1/") = Some "127.0.0.1"
  /\ option_map hostname (new_URL "https://[0:0::1]/") = Some "[::1]".
Proof. vm_compute. repeat split. Qed.

(** A URL whose path [https.request] refuses: the promise rejects, with no
    request. *)
Example sendToSlack_unescaped_path :
  sendToSlack "mailto:a b" (JStr "x") (NetResponse 200 [])
  = (None, [], Rejected UnescapedCharactersError).
Proof. vm_compute. reflexivity. Qed.

(** ** URL parser: lemmas *)

Lemma string_forallb_app (p : ascii -> bool) (a b : string) :
  string_forallb p (a ++ b) = string_forallb p a && string_forallb p b.
Proof. induction a as [|c a IH]; simpl; [reflexivity | now rewrite IH, andb_assoc]. Qed.

Lemma strip_leading_app (b r : string) (c : ascii) :
  is_c0_control_or_space c = false ->
  strip_leading (b ++ String c r) = strip_leading b ++ String c r.
Proof.
  intros Hc. induction b as [|d b IH]; simpl.
  - now rewrite Hc.
  - destruct (is_c0_control_or_space d); [exact IH | reflexivity].
Qed.

Lemma strip_trailing_app (a r : string) (c : ascii) :
  is_c0_control_or_space c = false ->
  strip_trailing (a ++ String c r) = a ++ String c (strip_trailing r).
Proof.
  intros Hc. induction a as [|d a IH]; cbn [append strip_trailing].
  - now rewrite Hc.
  - rewrite IH. destruct (is_c0_control_or_space d); [|reflexivity].
    destruct a; reflexivity.
Qed.

Lemma string_filter_app (p : ascii -> bool) (a b : string) :
  string_filter p (a ++ b) = string_filter p a ++ string_filter p b.
Proof.
  induction a as [|c a IH]; simpl; [reflexivity|].
  destruct (p c); simpl; now rewrite IH.
Qed.

Lemma string_forallb_strip_leading (p : ascii -> bool) (s : string) :
  string_forallb p s = true -> string_forallb p (strip_leading s) = true.
Proof.
  induction s as [|c s IH]; simpl; [reflexivity|].
  intros H. apply andb_prop in H as [Hc Hs].
  destruct (is_c0_control_or_space c); [now apply IH | simpl; now rewrite Hc, Hs].
Qed.

Lemma string_forallb_filter (p q : ascii -> bool) (s : string) :
  string_forallb p s = true -> string_forallb p (string_filter q s) = true.
Proof.
  induction s as [|c s IH]; simpl; [reflexivity|].
  intros H. apply andb_prop in H as [Hc Hs].
  destruct (q c); [simpl; now rewrite Hc, IH | now apply IH].
Qed.

Lemma fst_break_at_app (p : ascii -> bool) (a t : string) :
  string_forallb (fun c => negb (p c)) a = true ->
  fst (break_at p (a ++ t)) = a ++ fst (break_at p t).
Proof. intros H. now rewrite break_at_skip. Qed.

(** Bytes above the space are no tab or newline. *)
Lemma not_control_not_tab (c : ascii) :
  is_c0_control_or_space c = false -> is_ascii_tab_or_newline c = false.
Proof.
  destruct c as [[] [] [] [] [] [] [] []]; vm_compute; intros H;
    first [reflexivity | discriminate H].
Qed.

(** The input a URL is parsed from, once stripped, before its query. *)
Lemma new_URL_fields (s : string) :
  option_map (fun u => (hostname u, pathname u)) (new_URL s)
  = option_map (fun r => match r with (_, h, _, path) => (h, path) end)
      (url_before_query (fst (break_at (is_one_of "?#")
         (string_filter (fun c => negb (is_ascii_tab_or_newline c))
            (strip_trailing (strip_leading s)))))).
Proof.
  unfold new_URL. cbv zeta.
  destruct (break_at (is_one_of "?#") _) as [before after]. cbn [fst].
  destruct (url_before_query before) as [[[[scheme h] pt] path]|]; [|reflexivity].
  destruct after as [|c a]; [reflexivity|].
  cbv beta iota. destruct (Ascii.eqb c "?"); [|reflexivity].
  destruct (break_at _ a); reflexivity.
Qed.

Lemma sendToSlack_request_fields (a b : string) (message : json) :
  option_map (fun u => (hostname u, pathname u)) (new_URL a)
  = option_map (fun u => (hostname u, pathname u)) (new_URL b) ->
  sendToSlack_request a message = sendToSlack_request b message.
Proof.
  unfold sendToSlack_request.
  destruct (new_URL a) as [ua|], (new_URL b) as [ub|]; cbn; intros H;
    try discriminate; [|reflexivity].
  injection H as Eh Ep. now rewrite Eh, Ep.
Qed.

Lemma sendToSlack_request_some (url host path : string) (message : json) :
  option_map (fun u => (hostname u, pathname u)) (new_URL url) = Some (host, path) ->
  valid_request_path path = true ->
  exists req, sendToSlack_request url message = Some req
    /\ req_hostname req = host /\ req_path req = path.
Proof.
  unfold sendToSlack_request. destruct (new_URL url) as [u|]; cbn; [|discriminate].
  intros H Hv. injection H as <- <-. rewrite Hv.
  eexists. split; [reflexivity|]. split; reflexivity.
Qed.


(** Only what comes before the first '?' or '#' decides the request, as
    long as that part does not end in a space or control character (which
    would be stripped from it alone). *)
Lemma sendToSlack_request_before_query (base rest : string) (message : json) :
  string_forallb (fun c => negb (is_one_of "?#" c)) base = true ->
  (exists b c, base = b ++ String c "" /\ (32 < nat_of_ascii c)%nat) ->
  (exists c r, rest = String c r /\ is_one_of "?#" c = true) ->
  sendToSlack_request (base ++ rest) message = sendToSlack_request base message.
Proof.
  intros Hb (b & c & -> & Hc) (q & r & -> & Hq).
  apply sendToSlack_request_fields. rewrite !new_URL_fields.
  assert (Hc' : is_c0_control_or_space c = false)
    by (unfold is_c0_control_or_space; apply Nat.leb_gt; exact Hc).
  assert (Hq' : is_c0_control_or_space q = false /\ is_ascii_tab_or_newline q = false).
  { revert Hq. destruct q as [[] [] [] [] [] [] [] []]; vm_compute; intros H;
      first [discriminate H | split; reflexivity]. }
  destruct Hq' as [Hq1 Hq2].
  rewrite string_forallb_app in Hb. apply andb_prop in Hb as [Hb Hcb].
  cbn [string_forallb] in Hcb. rewrite andb_true_r in Hcb.
  replace ((b ++ String c "") ++ String q r) with (b ++ String c (String q r))
    by (rewrite str_append_assoc; reflexivity).
  rewrite !strip_leading_app by exact Hc'.
  rewrite !strip_trailing_app by exact Hc'.
  cbn [strip_trailing]. rewrite Hq1. cbn [andb].
  rewrite !string_filter_app. cbn [string_filter].
  rewrite (not_control_not_tab c Hc'), Hq2. cbn [negb].
  set (F := string_filter _ (strip_leading b)).
  assert (HF : string_forallb (fun c => negb (is_one_of "?#" c)) F = true)
    by (apply string_forallb_filter, string_forallb_strip_leading, Hb).
  rewrite !fst_break_at_app by exact HF.
  cbn [break_at]. apply negb_true_iff in Hcb. rewrite Hcb, Hq. reflexivity.
Qed.

(** A stripped input with no byte up to the space and no '?' or '#' is
    parsed as is. *)
Lemma clean_input (s : string) :
  string_forallb (fun c => negb (is_c0_control_or_space c) && negb (is_one_of "?#" c)) s
  = true ->
  fst (break_at (is_one_of "?#")
    (string_filter (fun c => negb (is_ascii_tab_or_newline c))
       (strip_trailing (strip_leading s)))) = s.
Proof.
  intros H.
  assert (E1 : strip_leading s = s).
  { destruct s as [|c s]; [reflexivity|]. cbn in H |- *.
    apply andb_prop in H as [H _]. apply andb_prop in H as [H _].
    apply negb_true_iff in H. now rewrite H. }
  assert (E2 : strip_trailing s = s).
  { clear E1. induction s as [|c s IH]; [reflexivity|]. cbn in H |- *.
    apply andb_prop in H as [Hc Hs]. apply andb_prop in Hc as [Hc _].
    apply negb_true_iff in Hc. rewrite Hc, IH by exact Hs. reflexivity. }
  assert (E3 : string_filter (fun c => negb (is_ascii_tab_or_newline c)) s = s).
  { clear E1 E2. induction s as [|c s IH]; [reflexivity|].
    cbn [string_forallb string_filter] in H |- *.
    apply andb_prop in H as [Hc Hs]. apply andb_prop in Hc as [Hc _].
    apply negb_true_iff in Hc. rewrite (not_control_not_tab c Hc). cbn [negb].
    now rewrite IH. }
  rewrite E1, E2, E3.
  rewrite <- (str_append_nil_r s) at 1.
  rewrite fst_break_at_app; [apply str_append_nil_r|].
  apply (string_forallb_mono _ _ s H). intros c Hc. now apply andb_prop in Hc as [_ Hc].
Qed.

(** What a byte of a plain host is not. *)
Lemma host_char (c : ascii) :
  in_range 33 126 c && negb (is_forbidden_domain_code_point c) = true ->
  is_one_of "/?#\@:[%" c = false /\ is_c0_control_or_space c = false
  /\ is_ascii c = true /\ is_forbidden_domain_code_point (ascii_lower c) = false
  /\ negb (is_one_of "/?#" c || (true && Ascii.eqb c "\")) = true
  /\ negb (Ascii.eqb c "@") = true /\ negb (Ascii.eqb c ":") = true
  /\ negb (Ascii.eqb c ":" || Ascii.eqb c "[") = true
  /\ negb (is_c0_control_or_space c) && negb (is_one_of "?#" c) = true
  /\ is_slash c = false.
Proof.
  destruct c as [[] [] [] [] [] [] [] []]; vm_compute; intros H;
    first [discriminate H | repeat split].
Qed.

(** What a byte of a plain path is not. *)
Lemma path_char (c : ascii) :
  negb (in_path_percent_encode_set c || Ascii.eqb c "\") = true ->
  is_c0_control_or_space c = false /\ is_one_of "?#" c = false
  /\ in_range 33 195 c = true /\ in_path_percent_encode_set c = false
  /\ Ascii.eqb c "\" = false
  /\ negb (is_c0_control_or_space c) && negb (is_one_of "?#" c) = true.
Proof.
  destruct c as [[] [] [] [] [] [] [] []]; vm_compute; intros H;
    first [discriminate H | repeat split].
Qed.


Lemma after_last_at_no_at (s : string) :
  string_forallb (fun c => negb (Ascii.eqb c "@")) s = true ->
  after_last_at s = (s, false).
Proof.
  induction s as [|c s IH]; cbn; [reflexivity|].
  intros H. apply andb_prop in H as [Hc Hs]. apply negb_true_iff in Hc.
  rewrite IH by exact Hs. now rewrite Hc.
Qed.

Lemma split_host_port_no_colon (inside : bool) (s : string) :
  string_forallb (fun c => negb (Ascii.eqb c ":")) s = true ->
  split_host_port inside s = (s, None).
Proof.
  revert inside. induction s as [|c s IH]; intros inside; cbn; [reflexivity|].
  intros H. apply andb_prop in H as [Hc Hs]. apply negb_true_iff in Hc.
  rewrite Hc. cbn [andb]. now rewrite IH.
Qed.


Lemma percent_decode_no_percent (s : string) :
  string_forallb (fun c => negb (Ascii.eqb c "%")) s = true -> percent_decode s = s.
Proof.
  induction s as [|c s IH]; cbn; [reflexivity|].
  intros H. apply andb_prop in H as [Hc Hs]. apply negb_true_iff in Hc.
  rewrite Hc. now rewrite IH.
Qed.

Lemma ascii_lowercase_forbidden (s : string) :
  string_forallb (fun c => in_range 33 126 c && negb (is_forbidden_domain_code_point c)) s
  = true ->
  string_forallb (fun c => negb (is_forbidden_domain_code_point c)) (ascii_lowercase s)
  = true.
Proof.
  induction s as [|c s IH]; cbn; [reflexivity|].
  intros H. apply andb_prop in H as [Hc Hs].
  destruct (host_char c Hc) as (_ & _ & _ & Hl & _). rewrite Hl. now apply IH.
Qed.

Lemma host_parser_plain (host : string) :
  plain_host host = true -> host_parser host false = Some (ascii_lowercase host).
Proof.
  unfold plain_host. intros H.
  apply andb_prop in H as [H Hnum]. apply andb_prop in H as [H Hxn].
  apply andb_prop in H as [Hne Hch].
  apply negb_true_iff in Hnum, Hxn, Hne.
  unfold host_parser.
  assert (Hpre : String.prefix "[" host = false).
  { destruct host as [|c h]; [discriminate|]. cbn [string_forallb] in Hch.
    apply andb_prop in Hch as [Hc _].
    destruct (host_char c Hc) as (Hc1 & _). unfold String.prefix.
    destruct (ascii_dec "[" c) as [<-|]; [vm_compute in Hc1; discriminate Hc1 | reflexivity]. }
  rewrite Hpre. cbn [negb].
  rewrite percent_decode_no_percent
    by (apply (string_forallb_mono _ _ _ Hch); intros c Hc;
        destruct (host_char c Hc) as (Hc1 & _); cbn in Hc1;
        repeat (apply orb_false_iff in Hc1 as [? Hc1]);
        destruct (Ascii.eqb c "%"); [discriminate | reflexivity]).
  unfold domain_to_ascii.
  assert (Hasc : string_forallb is_ascii host = true).
  { apply (string_forallb_mono _ _ _ Hch). intros c Hc.
    now destruct (host_char c Hc) as (_ & _ & Ha & _). }
  rewrite Hasc, Hxn. cbn [andb negb].
  assert (Hlne : String.eqb (ascii_lowercase host) "" = false)
    by (destruct host; [discriminate | reflexivity]).
  rewrite Hlne, (ascii_lowercase_forbidden host Hch). cbn [negb].
  now rewrite Hnum.
Qed.

Lemma split_on_no_sep (sep : ascii) (s : string) :
  string_forallb (fun c => negb (Ascii.eqb c sep)) s = true -> split_on sep s = [s].
Proof.
  induction s as [|c s IH]; cbn; [reflexivity|].
  intros H. apply andb_prop in H as [Hc Hs]. apply negb_true_iff in Hc.
  now rewrite Hc, IH.
Qed.

Lemma split_on_sep (sep : ascii) (a b : string) :
  string_forallb (fun c => negb (Ascii.eqb c sep)) a = true ->
  split_on sep (a ++ String sep b) = a :: split_on sep b.
Proof.
  induction a as [|c a IH]; cbn.
  - now rewrite Ascii.eqb_refl.
  - intros H. apply andb_prop in H as [Hc Hs]. apply negb_true_iff in Hc.
    now rewrite Hc, IH.
Qed.

Lemma concat_nil_sep (l : list string) :
  String.concat "" l = fold_right append "" l.
Proof.
  induction l as [|s l IH]; [reflexivity|].
  destruct l as [|s' l]; cbn.
  - now rewrite str_append_nil_r.
  - cbn in IH. now rewrite IH.
Qed.

Lemma path_serialize_snoc (path : list string) (seg : string) :
  path_serialize (path ++ [seg]) = path_serialize path ++ "/" ++ seg.
Proof.
  unfold path_serialize. rewrite !concat_nil_sep, map_app, fold_right_app.
  cbn [map fold_right]. rewrite str_append_nil_r.
  generalize (map (fun seg0 => "/" ++ seg0) path) as l.
  induction l as [|x l IH]; cbn [fold_right]; [reflexivity|].
  now rewrite IH, str_append_assoc.
Qed.

(** The path state keeps a path with no byte to encode, no backslash and
    no dot segment. *)
Lemma path_state_plain (path : list string) (buffer s : string) :
  string_forallb (fun c => negb (Ascii.eqb c "/")) buffer = true ->
  string_forallb (fun c => negb (in_path_percent_encode_set c || Ascii.eqb c "\")) s
  = true ->
  forallb not_dot_segment (split_on "/" (buffer ++ s)) = true ->
  path_serialize (path_state true false path buffer s)
  = path_serialize path ++ "/" ++ buffer ++ s.
Proof.
  revert path buffer. induction s as [|c s IH]; intros path buffer Hbuf Hs Hd.
  - rewrite str_append_nil_r in Hd |- *. rewrite split_on_no_sep in Hd by exact Hbuf.
    cbn in Hd. rewrite andb_true_r in Hd. unfold not_dot_segment in Hd.
    apply negb_true_iff, orb_false_iff in Hd as [Hs1 Hd1].
    cbn [path_state]. unfold path_segment_end. rewrite Hd1, Hs1. cbn [andb].
    apply path_serialize_snoc.
  - cbn [string_forallb] in Hs. apply andb_prop in Hs as [Hc Hs].
    destruct (path_char c Hc) as (_ & _ & _ & Hc1 & Hc2 & _).
    cbn [path_state]. rewrite Hc2, andb_false_r, orb_false_r.
    destruct (Ascii.eqb_spec c "/") as [->|Hne].
    + rewrite split_on_sep in Hd by exact Hbuf. cbn [forallb] in Hd.
      apply andb_prop in Hd as [Hd1 Hd].
      unfold not_dot_segment in Hd1. apply negb_true_iff, orb_false_iff in Hd1
        as [Hs1 Hd1].
      unfold path_segment_end at 1. rewrite Hd1, Hs1. cbn [andb].
      rewrite IH by (reflexivity || exact Hs || exact Hd).
      rewrite path_serialize_snoc, !str_append_assoc. reflexivity.
    + cbn [utf8_percent_encode]. rewrite Hc1, str_append_nil_r.
      rewrite IH.
      * now rewrite !str_append_assoc.
      * rewrite string_forallb_app, Hbuf. cbn.
        destruct (Ascii.eqb_spec c "/"); [contradiction | reflexivity].
      * exact Hs.
      * now rewrite str_append_assoc.
Qed.

Lemma path_start_plain (path : string) :
  plain_path path = true ->
  path_serialize (path_start_special false path)
  = (if String.eqb path "" then "/" else path)
  /\ valid_request_path (if String.eqb path "" then "/" else path) = true.
Proof.
  unfold plain_path. intros H.
  apply andb_prop in H as [H Hd]. apply andb_prop in H as [Hs Hch].
  destruct path as [|c p]; [split; reflexivity|].
  unfold String.prefix in Hs. cbn [String.eqb orb] in Hs.
  destruct (ascii_dec "/" c) as [<-|]; [|discriminate].
  replace (String.eqb (String "/" p) "") with false by reflexivity.
  split.
  - change (path_start_special false (String "/" p)) with (path_state true false [] "" p).
    rewrite path_state_plain; [reflexivity | reflexivity | |].
    + cbn [string_forallb] in Hch. now apply andb_prop in Hch as [_ Hch].
    + change (split_on "/" (String "/" p)) with (split_on "/" ("" ++ String "/" p)) in Hd.
      rewrite split_on_sep in Hd by reflexivity. cbn [forallb] in Hd.
      apply andb_prop in Hd as [_ Hd]. exact Hd.
  - unfold valid_request_path. apply (string_forallb_mono _ _ _ Hch).
    intros c Hc. now destruct (path_char c Hc) as (_ & _ & H3 & _).
Qed.

Lemma last_char (p : ascii -> bool) (s : string) :
  string_forallb p s = true -> s <> "" ->
  exists b c, s = b ++ String c "" /\ p c = true.
Proof.
  induction s as [|c s IH]; intros H Hne; [contradiction|].
  cbn [string_forallb] in H. apply andb_prop in H as [Hc Hs].
  destruct s as [|d s].
  - exists "", c. split; [reflexivity | exact Hc].
  - destruct (IH Hs ltac:(discriminate)) as (b & e & -> & He).
    exists (String c b), e. split; [reflexivity | exact He].
Qed.

Lemma plain_host_chars (host : string) :
  plain_host host = true ->
  string_forallb (fun c => in_range 33 126 c && negb (is_forbidden_domain_code_point c)) host
  = true /\ String.eqb host "" = false.
Proof.
  unfold plain_host. intros H.
  apply andb_prop in H as [H _]. apply andb_prop in H as [H _].
  apply andb_prop in H as [Hne Hch]. apply negb_true_iff in Hne. now split.
Qed.

Lemma plain_path_chars (path : string) :
  plain_path path = true ->
  string_forallb (fun c => negb (in_path_percent_encode_set c || Ascii.eqb c "\")) path = true
  /\ (path = "" \/ exists r, path = String "/" r).
Proof.
  unfold plain_path. intros H.
  apply andb_prop in H as [H _]. apply andb_prop in H as [Hs Hch].
  split; [exact Hch|].
  destruct path as [|c p]; [now left|right].
  unfold String.prefix in Hs. cbn [String.eqb orb] in Hs.
  destruct (ascii_dec "/" c) as [<-|]; [now exists p | discriminate].
Qed.

Lemma url_before_query_special (scheme rest : string) :
  In scheme ["http"; "https"; "ws"; "wss"; "ftp"] ->
  url_before_query (scheme ++ ":" ++ rest) =
    match authority_state true scheme (drop_while is_slash rest) with
    | Some (host, port, rest') =>
        Some (scheme, host, port, path_serialize (path_start_special false rest'))
    | None => None
    end.
Proof.
  intros Hin. unfold url_before_query.
  assert (E : scheme_start (scheme ++ ":" ++ rest) = Some (scheme, rest)
              /\ String.eqb scheme "file" = false /\ special_scheme scheme = true)
    by (destruct Hin as [<-|[<-|[<-|[<-|[<-|[]]]]]]; repeat split).
  destruct E as (E1 & E2 & E3). now rewrite E1, E2, E3.
Qed.

Lemma scheme_chars (scheme : string) :
  In scheme ["http"; "https"; "ws"; "wss"; "ftp"] ->
  string_forallb (fun c => negb (is_c0_control_or_space c) && negb (is_one_of "?#" c))
    (scheme ++ "://") = true.
Proof. intros Hin. destruct Hin as [<-|[<-|[<-|[<-|[<-|[]]]]]]; reflexivity. Qed.

Lemma drop_while_host (host rest : string) :
  plain_host host = true ->
  drop_while is_slash ("//" ++ host ++ rest) = host ++ rest.
Proof.
  intros Hh. destruct (plain_host_chars host Hh) as [Hch Hne].
  destruct host as [|c h]; [discriminate|].
  cbn [string_forallb] in Hch. apply andb_prop in Hch as [Hc _].
  change (drop_while is_slash (String c (h ++ rest)) = String c (h ++ rest)).
  cbn [drop_while]. apply host_char in Hc. destruct Hc as (_ & _ & _ & _ & _ & _ & _ & _ & _ & ->).
  reflexivity.
Qed.

Lemma authority_state_plain (scheme host rest : string) :
  plain_host host = true ->
  (rest = "" \/ exists r, rest = String "/" r) ->
  authority_state true scheme (host ++ rest) = Some (ascii_lowercase host, None, rest).
Proof.
  intros Hh Hr. pose proof (host_parser_plain host Hh) as Hp.
  destruct (plain_host_chars host Hh) as [Hch Hne].
  assert (Hb : break_at (fun c => is_one_of "/?#" c || (true && Ascii.eqb c "\")) (host ++ rest)
               = (host, rest)).
  { rewrite break_at_skip.
    - destruct Hr as [->|[r ->]]; cbn [fst snd].
      + now rewrite str_append_nil_r.
      + rewrite break_at_stop by reflexivity. cbn [fst snd]. now rewrite str_append_nil_r.
    - apply (string_forallb_mono _ _ _ Hch). intros c Hc. apply host_char in Hc. tauto. }
  unfold authority_state. rewrite Hb. cbn beta iota.
  rewrite after_last_at_no_at
    by (apply (string_forallb_mono _ _ _ Hch); intros c Hc; apply host_char in Hc; tauto).
  cbn beta iota. cbn [andb].
  rewrite split_host_port_no_colon
    by (apply (string_forallb_mono _ _ _ Hch); intros c Hc; apply host_char in Hc; tauto).
  cbn beta iota. rewrite Hne. cbn [andb negb]. now rewrite Hp.
Qed.


(** The fields a special URL with a plain host and path is parsed to. *)
Lemma new_URL_plain (scheme host path : string) :
  In scheme ["http"; "https"; "ws"; "wss"; "ftp"] ->
  plain_host host = true -> plain_path path = true ->
  option_map (fun u => (hostname u, pathname u)) (new_URL (scheme ++ "://" ++ host ++ path))
  = Some (ascii_lowercase host, if String.eqb path "" then "/" else path).
Proof.
  intros Hin Hh Hp.
  destruct (plain_host_chars host Hh) as [Hch _].
  destruct (plain_path_chars path Hp) as [Hpc Hshape].
  rewrite new_URL_fields, clean_input.
  - change (scheme ++ "://" ++ host ++ path) with (scheme ++ ":" ++ "//" ++ host ++ path).
    rewrite url_before_query_special by exact Hin.
    rewrite drop_while_host by exact Hh.
    rewrite authority_state_plain by assumption.
    cbn beta iota. destruct (path_start_plain path Hp) as [-> _]. reflexivity.
  - replace (scheme ++ "://" ++ host ++ path) with ((scheme ++ "://") ++ host ++ path)
      by (rewrite str_append_assoc; reflexivity).
    rewrite string_forallb_app, (scheme_chars scheme Hin). cbn [andb].
    rewrite !string_forallb_app.
    apply andb_true_intro. split.
    + apply (string_forallb_mono _ _ _ Hch). intros c Hc. apply host_char in Hc. tauto.
    + apply (string_forallb_mono _ _ _ Hpc). intros c Hc. apply path_char in Hc. tauto.
Qed.


(** ** Delivery client: claims *)

(** C4 (amended): once the request is issued, a 200 response resolves with
    the concatenated body; any other status rejects with an [Error] whose
    message is "Slack API returned status <code>", the status and the body
    being logged; a transport failure rejects with the underlying error,
    which is logged. *)
Theorem sendToSlack_outcomes (url : string) (message : json) (req : request) :
  sendToSlack_request url message = Some req ->
  (forall chunks,
     sendToSlack url message (NetResponse 200 chunks)
     = (Some req, [Log "Successfully sent countdown update to Slack"],
        Resolved (String.concat "" chunks)))
  /\ (forall statusCode chunks, statusCode <> 200%Z ->
     sendToSlack url message (NetResponse statusCode chunks)
     = (Some req,
        [LogError ("Slack API error: " ++ Z_to_string statusCode ++ " - "
                   ++ String.concat "" chunks)],
        Rejected (Error ("Slack API returned status "
                         ++ Z_to_string statusCode))))
  /\ (forall cause,
     sendToSlack url message (NetError cause)
     = (Some req, [LogErrorValue "Error sending to Slack:" (NodeError cause)],
        Rejected (NodeError cause))).
Proof.
  intros Hreq. unfold sendToSlack. rewrite Hreq.
  split; [|split].
  - intros chunks. simpl. now rewrite fold_left_append.
  - intros statusCode chunks Hst. unfold sendToSlack_settle.
    rewrite fold_left_append. apply Z.eqb_neq in Hst. now rewrite Hst.
  - reflexivity.
Qed.

(** C5 (code bug): the request is a single POST with
    [Content-Type: application/json], but its [Content-Length] is
    [data.length], the number of UTF-16 code units of the JSON text, not the
    number of bytes [req.write(data)] sends. For the message of a reached
    target (two U+1F389 emoji) the header says 115 while the body has 119
    bytes; for the countdown message {2, 3, 4, 5} it says 422 for 428
    bytes. *)
Theorem sendToSlack_content_length_mismatch :
  (forall url message req, sendToSlack_request url message = Some req ->
     req_method req = "POST"
     /\ header "Content-Type" req = Some (HStr "application/json")
     /\ header "Content-Length" req
        = Some (HNum (Z.of_nat (utf16_length (req_body req))))
     /\ req_body req = JSON_stringify message)
  /\ (exists req,
     sendToSlack_request slack_url
       (formatCountdownMessage (getTimeRemaining TARGET_DATE TARGET_DATE))
     = Some req
     /\ header "Content-Length" req = Some (HNum 115)
     /\ byte_length (req_body req) = 119%nat)
  /\ (exists req,
     sendToSlack_request slack_url
       (formatCountdownMessage (mkTimeRemaining 2 3 4 5 false)) = Some req
     /\ header "Content-Length" req = Some (HNum 422)
     /\ byte_length (req_body req) = 428%nat).
Proof.
  split; [|split].
  - intros url message req H. unfold sendToSlack_request in H.
    destruct (new_URL url) as [u|]; [|discriminate].
    destruct (valid_request_path (pathname u)); [|discriminate].
    injection H as <-. repeat split.
  - eexists. split; [vm_compute; reflexivity|]. split; vm_compute; reflexivity.
  - eexists. split; [vm_compute; reflexivity|]. split; vm_compute; reflexivity.
Qed.

(** C10: the request takes the [hostname] and the [pathname] of the parsed
    URL, and the pathname holds no query and no fragment: whatever follows
    the first '?' or '#' of the webhook URL does not change the request
    (as long as the part before it does not end in a space or control
    character, which the URL parser strips from it alone). For a plain
    https URL https://host/path?query, the request goes to the host
    lowercased, with the path as written ("/" when it is empty). *)
Theorem sendToSlack_drops_query (message : json) :
  (forall url req, sendToSlack_request url message = Some req ->
     exists u, new_URL url = Some u /\ req_hostname req = hostname u
               /\ req_path req = pathname u)
  /\ (forall base rest,
        string_forallb (fun c => negb (is_one_of "?#" c)) base = true ->
        (exists b c, base = b ++ String c "" /\ (32 < nat_of_ascii c)%nat) ->
        (exists c r, rest = String c r /\ is_one_of "?#" c = true) ->
        sendToSlack_request (base ++ rest) message = sendToSlack_request base message)
  /\ (forall host path query,
        plain_host host = true -> plain_path path = true ->
        exists req,
          sendToSlack_request ("https://" ++ host ++ path ++ "?" ++ query) message = Some req
          /\ req_hostname req = ascii_lowercase host
          /\ req_path req = (if String.eqb path "" then "/" else path)).
Proof.
  split; [|split].
  - intros url req H. unfold sendToSlack_request in H.
    destruct (new_URL url) as [u|]; [|discriminate].
    destruct (valid_request_path (pathname u)); [|discriminate].
    injection H as <-. exists u. now repeat split.
  - intros base rest. exact (sendToSlack_request_before_query base rest message).
  - intros host path query Hh Hp.
    destruct (plain_host_chars host Hh) as [Hch _].
    destruct (plain_path_chars path Hp) as [Hpc _].
    assert (Hhttps : In "https" ["http"; "https"; "ws"; "wss"; "ftp"])
      by (right; left; reflexivity).
    assert (Hbase : string_forallb
              (fun c => negb (is_c0_control_or_space c) && negb (is_one_of "?#" c))
              ("https://" ++ host ++ path) = true).
    { change ("https://" ++ host ++ path) with (("https" ++ "://") ++ host ++ path).
      rewrite string_forallb_app, (scheme_chars "https" Hhttps). cbn [andb].
      rewrite string_forallb_app. apply andb_true_intro. split.
      + apply (string_forallb_mono _ _ _ Hch). intros c Hc. apply host_char in Hc. tauto.
      + apply (string_forallb_mono _ _ _ Hpc). intros c Hc. apply path_char in Hc. tauto. }
    replace ("https://" ++ host ++ path ++ "?" ++ query)
      with (("https://" ++ host ++ path) ++ "?" ++ query)
      by (rewrite !str_append_assoc; reflexivity).
    rewrite sendToSlack_request_before_query.
    + apply sendToSlack_request_some.
      * exact (new_URL_plain "https" host path Hhttps Hh Hp).
      * exact (proj2 (path_start_plain path Hp)).
    + apply (string_forallb_mono _ _ _ Hbase). intros c Hc.
      now apply andb_prop in Hc as [_ Hc].
    + destruct (last_char _ _ Hbase ltac:(discriminate)) as (b & c & Eb & Hc).
      exists b, c. split; [exact Eb|].
      apply andb_prop in Hc as [Hc _]. apply negb_true_iff, Nat.leb_gt in Hc. exact Hc.
    + exists "?"%char, query. split; reflexivity.
Qed.


(** ** Driver: lemmas *)

Lemma ended_exited (p : Proc) (code : Z) : exited p = Some code -> ended p = true.
Proof. intros He. unfold ended. now rewrite He. Qed.

Lemma ended_armed (p : Proc) : exited p = None -> armed p = true -> ended p = false.
Proof. intros He Ha. unfold ended. now rewrite He, Ha. Qed.

Lemma ended_pending (p : Proc) (i : nat) (x : TimeRemaining * json) :
  exited p = None -> nth_error (inflight p) i = Some x -> ended p = false.
Proof.
  intros He Hn. unfold ended. rewrite He.
  destruct (inflight p) as [|y l]; [destruct i; discriminate|].
  now rewrite andb_false_r.
Qed.

Lemma run_ended (inputs : list input) (p : Proc) :
  ended p = true -> run inputs p = p.
Proof.
  unfold run. revert p.
  induction inputs as [|inp inputs IH]; intros p He; simpl; [reflexivity|].
  unfold step at 2. rewrite He. now apply IH.
Qed.

Lemma run_exited (inputs : list input) (p : Proc) (code : Z) :
  exited p = Some code -> run inputs p = p.
Proof. intros He. apply run_ended. now apply ended_exited with code. Qed.

Lemma run_cons (inp : input) (inputs : list input) (p : Proc) :
  run (inp :: inputs) p = run inputs (step p inp).
Proof. reflexivity. Qed.

Lemma step_disarmed (p : Proc) (inp : input) :
  armed p = false ->
  armed (step p inp) = false /\ ticks (step p inp) = ticks p.
Proof.
  intros Ha. unfold step.
  destruct (ended p); [auto|].
  destruct inp as [now|i net|].
  - rewrite Ha. auto.
  - destruct (nth_error (inflight p) i) as [[tr msg]|]; [|auto].
    unfold updateCountdown_resume.
    cbn [webhook armed inflight exited ticks trace].
    destruct (sendToSlack (webhook p) msg net) as [[r logs] [v|e]].
    + destruct (hasStarted tr); simpl; auto.
    + simpl; auto.
  - simpl; auto.
Qed.

Lemma run_disarmed (inputs : list input) (p : Proc) :
  armed p = false ->
  armed (run inputs p) = false /\ ticks (run inputs p) = ticks p.
Proof.
  unfold run. revert p.
  induction inputs as [|inp inputs IH]; intros p Ha; simpl; [auto|].
  destruct (step_disarmed p inp Ha) as [Ha' Ht'].
  destruct (IH _ Ha') as [H1 H2]. split; [exact H1|]. congruence.
Qed.

Lemma sendToSlack_failure_rejects (url : string) (message : json)
  (net : net_result) :
  (exists cause, net = NetError cause)
  \/ (exists statusCode chunks, net = NetResponse statusCode chunks
                                /\ statusCode <> 200%Z) ->
  exists logs e, sendToSlack url message net = (sendToSlack_request url message, logs, Rejected e).
Proof.
  intros Hnet. unfold sendToSlack.
  destruct (sendToSlack_request url message) as [req|].
  - destruct Hnet as [[cause ->] | (st & chunks & -> & Hst)].
    + simpl. eauto.
    + unfold sendToSlack_settle. apply Z.eqb_neq in Hst. rewrite Hst. eauto.
  - eauto.
Qed.

Lemma step_settles (p : Proc) (i : nat) (net : net_result)
  (tr : TimeRemaining) (msg : json) :
  exited p = None -> nth_error (inflight p) i = Some (tr, msg) ->
  exists logs,
    webhook (step p (Settles i net)) = webhook p
    /\ exited (step p (Settles i net)) = None
    /\ ticks (step p (Settles i net)) = ticks p
    /\ inflight (step p (Settles i net)) = remove_nth i (inflight p)
    /\ trace (step p (Settles i net)) = (trace p ++ map EOut logs)%list
    /\ armed (step p (Settles i net))
       = (match snd (sendToSlack (webhook p) msg net) with
          | Resolved _ => if hasStarted tr then false else armed p
          | Rejected _ => armed p
          end).
Proof.
  intros He Hn. unfold step. rewrite (ended_pending p i (tr, msg) He Hn), Hn.
  unfold updateCountdown_resume.
  cbn [webhook armed inflight exited ticks trace]. rewrite He.
  destruct (sendToSlack (webhook p) msg net) as [[r logs] [v|e]]; cbn [snd].
  - destruct (hasStarted tr).
    + exists (logs ++ [Log "Event has started! Stopping countdown updates."])%list.
      cbn. repeat split. now rewrite map_app.
    + exists logs. cbn. now repeat split.
  - exists (logs ++ [LogErrorValue "Failed to update countdown:" e])%list.
    cbn. repeat split. now rewrite map_app.
Qed.

Lemma step_exited_not_sigint (p : Proc) (inp : input) :
  is_sigint inp = false -> exited (step p inp) = exited p.
Proof.
  intros Hs. destruct (ended p) eqn:Hend.
  { unfold step. now rewrite Hend. }
  destruct (exited p) as [code|] eqn:He.
  { rewrite (ended_exited p code He) in Hend. discriminate. }
  destruct inp as [now|i net|]; [| |discriminate].
  - unfold step. rewrite Hend. destruct (armed p); exact He.
  - destruct (nth_error (inflight p) i) as [[tr msg]|] eqn:Hn.
    + destruct (step_settles p i net tr msg He Hn) as (logs & _ & E & _).
      exact E.
    + unfold step. now rewrite Hend, Hn.
Qed.

Lemma run_exited_no_sigint (inputs : list input) (p : Proc) :
  existsb is_sigint inputs = false -> exited (run inputs p) = exited p.
Proof.
  revert p. induction inputs as [|inp inputs IH]; intros p Hs; [reflexivity|].
  cbn [existsb] in Hs. apply orb_false_iff in Hs as [H1 H2].
  rewrite run_cons, IH by exact H2. now apply step_exited_not_sigint.
Qed.

Lemma step_bad_url (url : string) (p : Proc) (inp : input) :
  new_URL url = None -> bad_url_invariant url p ->
  bad_url_invariant url (step p inp).
Proof.
  intros Hu (Hw & Ha & Ht).
  assert (Hreq : forall m, sendToSlack_request url m = None)
    by (intros m; unfold sendToSlack_request; now rewrite Hu).
  destruct (ended p) eqn:Hend.
  { replace (step p inp) with p by (unfold step; now rewrite Hend).
    unfold bad_url_invariant. auto. }
  destruct (exited p) as [code|] eqn:He.
  { rewrite (ended_exited p code He) in Hend. discriminate. }
  destruct inp as [now|i net|].
  - unfold step. rewrite Hend, (Ha eq_refl).
    unfold updateCountdown_start, bad_url_invariant.
    cbn [webhook armed exited trace]. rewrite Hw, Hreq, forallb_app, Ht.
    repeat split; auto.
  - destruct (nth_error (inflight p) i) as [[tr msg]|] eqn:Hn.
    + destruct (step_settles p i net tr msg He Hn)
        as (logs & Ew & Ee & _ & _ & Etr & Ea).
      unfold bad_url_invariant. rewrite Ew, Ee, Etr, Ea, forallb_app, Ht, Hw.
      unfold sendToSlack. rewrite Hreq. cbn [snd].
      split; [reflexivity|]. split; [auto|].
      clear. induction logs; simpl; auto.
    + unfold step. rewrite Hend, Hn. unfold bad_url_invariant. rewrite He. auto.
  - unfold step. rewrite Hend. unfold bad_url_invariant.
    cbn [webhook armed exited trace]. rewrite forallb_app, Ht.
    repeat split; auto. discriminate.
Qed.

(** ** Driver: claims *)

(** C6 (amended): when the tick that computed [hasStarted = true] has its
    delivery resolved, the interval is cleared, and from then on no input
    re-arms it or starts a tick (stopped is terminal); when that delivery
    is rejected, the interval stays as it was and ticks continue. *)
Theorem reached_tick_stops_after_successful_delivery
  (p : Proc) (i : nat) (tr : TimeRemaining) (msg : json) (net : net_result) :
  exited p = None ->
  nth_error (inflight p) i = Some (tr, msg) ->
  hasStarted tr = true ->
  ((exists v, snd (sendToSlack (webhook p) msg net) = Resolved v) ->
     armed (step p (Settles i net)) = false
     /\ forall inputs,
          armed (run inputs (step p (Settles i net))) = false
          /\ ticks (run inputs (step p (Settles i net))) = ticks p)
  /\ ((exists e, snd (sendToSlack (webhook p) msg net) = Rejected e) ->
     armed (step p (Settles i net)) = armed p
     /\ ticks (step p (Settles i net)) = ticks p).
Proof.
  intros He Hnth Hst.
  assert (Hstep : step p (Settles i net)
    = updateCountdown_resume (tr, msg) net
        (mkProc (webhook p) (armed p) (remove_nth i (inflight p))
                (exited p) (ticks p) (trace p))).
  { unfold step. now rewrite (ended_pending p i (tr, msg) He Hnth), Hnth. }
  rewrite Hstep. unfold updateCountdown_resume.
  cbn [webhook armed inflight exited ticks trace].
  destruct (sendToSlack (webhook p) msg net) as [[r logs] o].
  simpl. split.
  - intros [v ->]. rewrite Hst. simpl.
    split; [reflexivity|]. intros inputs.
    match goal with |- armed (run _ ?q) = false /\ _ =>
      destruct (run_disarmed inputs q eq_refl) as [A B] end.
    split; [exact A | rewrite B; reflexivity].
  - intros [e ->]. simpl. auto.
Qed.

(** C7: a tick that has not reached the target and whose delivery fails
    (a transport error, or a response other than 200) is caught and logged
    within the tick; the tick ends, the interval and the exit status are
    unchanged, and the next timer firing starts a new tick. *)
Theorem failed_delivery_is_recovered
  (p : Proc) (i : nat) (tr : TimeRemaining) (msg : json) (net : net_result) :
  exited p = None ->
  nth_error (inflight p) i = Some (tr, msg) ->
  hasStarted tr = false ->
  (exists cause, net = NetError cause)
  \/ (exists statusCode chunks, net = NetResponse statusCode chunks
                                /\ statusCode <> 200%Z) ->
  let p' := step p (Settles i net) in
  armed p' = armed p /\ exited p' = None /\ ticks p' = ticks p
  /\ inflight p' = remove_nth i (inflight p)
  /\ (exists logs e,
        trace p' = (trace p ++ map EOut logs
                   ++ [EOut (LogErrorValue "Failed to update countdown:" e)])%list)
  /\ (armed p = true -> forall now, ticks (step p' (TimerFires now)) = S (ticks p)).
Proof.
  intros He Hnth Hst Hnet p'.
  destruct (sendToSlack_failure_rejects (webhook p) msg net Hnet) as (logs & e & E).
  assert (Hp' : p' = mkProc (webhook p) (armed p) (remove_nth i (inflight p))
                     (exited p) (ticks p)
                     (trace p ++ map EOut logs
                      ++ [EOut (LogErrorValue "Failed to update countdown:" e)])).
  { subst p'. unfold step. rewrite (ended_pending p i (tr, msg) He Hnth), Hnth.
    unfold updateCountdown_resume.
    cbn [webhook armed inflight exited ticks trace]. now rewrite E. }
  rewrite Hp'. cbn [webhook armed inflight exited ticks trace].
  repeat split; auto.
  - exists logs, e. reflexivity.
  - intros Ha now. unfold step, ended. cbn [exited armed]. rewrite He, Ha.
    reflexivity.
Qed.

(** C8 (amended): when the webhook variable is unset or empty, the process
    prints the diagnostic and exits with status 1 without any call of the
    pipeline, and nothing runs afterwards; otherwise it stays alive, arms
    the interval and has already started the first tick (clock read,
    formatting, request), after the start-up logs only. *)
Theorem startup_configuration (env : option string) (now : Z) :
  ((env = None \/ env = Some "") ->
     exited (startup env now) = Some 1%Z
     /\ ticks (startup env now) = 0%nat
     /\ forallb (fun e => negb (is_pipeline_event e)) (trace (startup env now)) = true
     /\ In (EOut (LogError "ERROR: SLACK_WEBHOOK_URL environment variable is not set"))
           (trace (startup env now))
     /\ (forall inputs, run inputs (startup env now) = startup env now))
  /\ (forall url, env = Some url -> url <> "" ->
     exited (startup env now) = None
     /\ armed (startup env now) = true
     /\ ticks (startup env now) = 1%nat
     /\ exists pre,
          trace (startup env now)
          = (pre ++ [ECalc now; EFormat;
                    ERequest (sendToSlack_request url
                       (formatCountdownMessage (getTimeRemaining now TARGET_DATE)))])%list
          /\ forallb (fun e => negb (is_pipeline_event e)) pre = true).
Proof.
  split.
  - intros Henv.
    assert (Hs : startup env now = startup None now)
      by (destruct Henv as [-> | ->]; reflexivity).
    rewrite Hs. repeat split; try reflexivity.
    + simpl. auto.
    + intros inputs. now apply run_exited with 1%Z.
  - intros url -> Hne. unfold startup.
    apply String.eqb_neq in Hne. rewrite Hne.
    repeat split; try reflexivity.
    eexists. split; reflexivity.
Qed.

(** ** Further properties: time calculator *)

Lemma getTimeRemaining_total_seconds (now target : Z) :
  total_seconds (getTimeRemaining now target)
  = if (target - now <=? 0)%Z then 0%Z else ((target - now) / 1000)%Z.
Proof.
  unfold getTimeRemaining, total_seconds; cbv zeta.
  destruct (Z.leb_spec (target - now) 0) as [Hle|Hgt]; [reflexivity|].
  simpl. set (D := (target - now)%Z).
  assert (HD : (0 < D)%Z) by (unfold D; lia). clearbody D.
  rewrite !Z.rem_mod_nonneg by lia.
  pose proof (Z.div_mod D 86400000 ltac:(lia)) as E1.
  pose proof (Z.div_mod (D mod 86400000) 3600000 ltac:(lia)) as E2.
  pose proof (Z.div_mod D 1000 ltac:(lia)) as E5.
  pose proof (Z.mod_pos_bound D 1000 ltac:(lia)) as B5.
  assert (M1 : (D mod 86400000 mod 3600000 = D mod 3600000)%Z).
  { apply Z.mod_mod_divide. exists 24%Z; reflexivity. }
  assert (M2 : (D mod 3600000 = 60000 * (D mod 3600000 / 60000)
                + D mod 60000)%Z).
  { rewrite (Z.div_mod (D mod 3600000) 60000) at 1 by lia.
    f_equal. apply Z.mod_mod_divide. exists 60%Z; reflexivity. }
  assert (M3 : (D mod 60000 = 1000 * (D mod 60000 / 1000)
                + D mod 1000)%Z).
  { rewrite (Z.div_mod (D mod 60000) 1000) at 1 by lia.
    f_equal. apply Z.mod_mod_divide. exists 60%Z; reflexivity. }
  rewrite M1 in E2. lia.
Qed.

(** Once [getTimeRemaining] reports the event as started, every later
    reading does too, with all fields zero. *)
Theorem getTimeRemaining_started_stays (now1 now2 target : Z) :
  (now1 <= now2)%Z ->
  hasStarted (getTimeRemaining now1 target) = true ->
  getTimeRemaining now2 target = mkTimeRemaining 0 0 0 0 true.
Proof.
  intros Hle Hs. apply getTimeRemaining_started in Hs.
  unfold getTimeRemaining; cbv zeta.
  destruct (Z.leb_spec (target - now2) 0); [reflexivity | lia].
Qed.

Lemma getTimeRemaining_started_stays_witness :
  getTimeRemaining (TARGET_DATE + UPDATE_INTERVAL) TARGET_DATE
  = mkTimeRemaining 0 0 0 0 true.
Proof.
  exact (getTimeRemaining_started_stays TARGET_DATE (TARGET_DATE + UPDATE_INTERVAL)
           TARGET_DATE ltac:(unfold UPDATE_INTERVAL; lia) eq_refl).
Defined.

(** The countdown never goes up: the whole seconds shown by
    [getTimeRemaining] (days, hours, minutes and seconds together) are
    [floor((target - now) / 1000)] before the target and 0 after it, so a
    later reading never shows more time left than an earlier one. *)
Theorem getTimeRemaining_total_antitone (now1 now2 target : Z) :
  (now1 <= now2)%Z ->
  (total_seconds (getTimeRemaining now2 target)
   <= total_seconds (getTimeRemaining now1 target))%Z
  /\ total_seconds (getTimeRemaining now1 target)
     = Z.max 0 ((target - now1) / 1000).
Proof.
  intros Hle. rewrite !getTimeRemaining_total_seconds.
  split.
  - destruct (Z.leb_spec (target - now2) 0);
      destruct (Z.leb_spec (target - now1) 0); try lia.
    + apply Z.div_pos; lia.
    + apply Z.div_le_mono; lia.
  - destruct (Z.leb_spec (target - now1) 0).
    + assert (((target - now1) / 1000 <= 0)%Z).
      { apply Z.div_le_upper_bound; lia. }
      lia.
    + assert ((0 <= (target - now1) / 1000)%Z) by (apply Z.div_pos; lia).
      lia.
Qed.

Lemma getTimeRemaining_total_antitone_witness :
  (total_seconds (getTimeRemaining 1500 10000)
   <= total_seconds (getTimeRemaining 999 10000))%Z.
Proof.
  exact (proj1 (getTimeRemaining_total_antitone 999 1500 10000 ltac:(lia))).
Defined.

(** ** Further properties: Content-Length of every message *)

Lemma json_ind' (P : json -> Prop)
  (HS : forall s, P (JStr s))
  (HA : forall l, Forall P l -> P (JArr l))
  (HO : forall kvs, Forall (fun kv => P (snd kv)) kvs -> P (JObj kvs)) :
  forall v, P v.
Proof.
  exact (fix F v :=
    match v return P v with
    | JStr s => HS s
    | JArr l => HA l ((fix G l := match l return Forall P l with
                                  | [] => Forall_nil P
                                  | x :: l' => Forall_cons x (F x) (G l')
                                  end) l)
    | JObj kvs =>
        HO kvs ((fix G kvs := match kvs return Forall (fun kv => P (snd kv)) kvs with
                              | [] => Forall_nil _
                              | kv :: kvs' => Forall_cons kv (F (snd kv)) (G kvs')
                              end) kvs)
    end).
Qed.

Lemma str_length_app (a b : string) :
  String.length (a ++ b) = (String.length a + String.length b)%nat.
Proof. induction a as [|c a IH]; simpl; [reflexivity | now rewrite IH]. Qed.

Lemma utf16_length_app (a b : string) :
  utf16_length (a ++ b) = (utf16_length a + utf16_length b)%nat.
Proof. induction a as [|c a IH]; simpl; [reflexivity | rewrite IH; lia]. Qed.

Lemma delta_app (a b : string) : delta (a ++ b) = (delta a + delta b)%Z.
Proof.
  unfold delta, byte_length.
  rewrite str_length_app, utf16_length_app. lia.
Qed.

Lemma delta_escape_char (c : ascii) :
  delta (json_escape_char c) = delta (String c EmptyString).
Proof. destruct c as [[] [] [] [] [] [] [] []]; reflexivity. Qed.

Lemma delta_escape (s : string) : delta (json_escape s) = delta s.
Proof.
  induction s as [|c s IH]; [reflexivity|].
  simpl json_escape. rewrite delta_app, delta_escape_char, IH.
  change (String c s) with (String c EmptyString ++ s).
  now rewrite delta_app.
Qed.

Lemma delta_concat (sep : string) (l : list string) :
  delta sep = 0%Z ->
  delta (String.concat sep l) = fold_right (fun s acc => (delta s + acc)%Z) 0%Z l.
Proof.
  intros Hsep. induction l as [|s l IH]; [reflexivity|].
  destruct l as [|s' l].
  - simpl. lia.
  - change (String.concat sep (s :: s' :: l))
      with (s ++ sep ++ String.concat sep (s' :: l)).
    rewrite !delta_app, Hsep, IH. simpl. lia.
Qed.

Lemma delta_JSON_stringify (v : json) : delta (JSON_stringify v) = json_delta v.
Proof.
  induction v as [s|l IH|kvs IH] using json_ind'.
  - cbn [JSON_stringify json_delta]. unfold json_quote.
    rewrite !delta_app, delta_escape.
    change (delta (chr 34)) with 0%Z. lia.
  - cbn [JSON_stringify json_delta].
    rewrite !delta_app, delta_concat by reflexivity.
    change (delta "[") with 0%Z. change (delta "]") with 0%Z.
    enough (E : fold_right (fun s acc => (delta s + acc)%Z) 0%Z (map JSON_stringify l)
                = fold_right (fun x acc => (json_delta x + acc)%Z) 0%Z l) by lia.
    induction IH as [|x l Hx _ IHl]; [reflexivity|].
    cbn [map fold_right]. now rewrite Hx, IHl.
  - cbn [JSON_stringify json_delta].
    rewrite !delta_app, delta_concat by reflexivity.
    change (delta "{") with 0%Z. change (delta "}") with 0%Z.
    enough (E : fold_right (fun s acc => (delta s + acc)%Z) 0%Z
                  (map (fun kv => json_quote (fst kv) ++ ":" ++ JSON_stringify (snd kv)) kvs)
                = fold_right (fun kv acc => (delta (fst kv) + json_delta (snd kv) + acc)%Z)
                    0%Z kvs) by lia.
    induction IH as [|kv kvs Hx _ IHl]; [reflexivity|].
    cbn [map fold_right]. rewrite IHl. unfold json_quote.
    rewrite !delta_app, delta_escape, Hx.
    change (delta ":") with 0%Z. change (delta (chr 34)) with 0%Z. lia.
Qed.

Lemma delta_cons (c : ascii) (s : string) :
  delta (String c s) = (delta (String c EmptyString) + delta s)%Z.
Proof. change (String c s) with (String c EmptyString ++ s). apply delta_app. Qed.

Lemma delta_string_of_uint (u : Decimal.uint) :
  delta (NilEmpty.string_of_uint u) = 0%Z.
Proof.
  induction u; cbn [NilEmpty.string_of_uint]; try reflexivity;
    rewrite delta_cons, IHu; reflexivity.
Qed.

Lemma delta_Z_to_string (n : Z) : delta (Z_to_string n) = 0%Z.
Proof.
  unfold Z_to_string, NilEmpty.string_of_int.
  destruct (Z.to_int n) as [u|u].
  - apply delta_string_of_uint.
  - rewrite delta_cons, delta_string_of_uint. reflexivity.
Qed.

Lemma delta_padStart2 (s : string) : delta (padStart2 s) = delta s.
Proof.
  unfold padStart2. destruct (2 <=? String.length s)%nat; [reflexivity|].
  rewrite delta_app, delta_concat by reflexivity.
  generalize (2 - String.length s)%nat as k. intros k.
  induction k as [|k IH]; simpl; lia.
Qed.

Lemma delta_formattedTime (d : TimeRemaining) : delta (formattedTime d) = 0%Z.
Proof.
  unfold formattedTime.
  rewrite !delta_app, !delta_padStart2, !delta_Z_to_string. reflexivity.
Qed.

(** Every request [sendToSlack] issues for a formatted message announces
    fewer bytes than it sends: [Content-Length] is the byte length of the
    body minus 4 for the started message (two U+1F389, each 4 bytes but 2
    UTF-16 units) and minus 6 for the countdown message (U+1F680, U+1F4C5
    and the bullet U+2022, 3 bytes but 1 unit), whatever the duration. *)
Theorem sendToSlack_content_length_shortfall
  (url : string) (d : TimeRemaining) (req : request) :
  sendToSlack_request url (formatCountdownMessage d) = Some req ->
  header "Content-Length" req
  = Some (HNum (Z.of_nat (byte_length (req_body req))
                - (if hasStarted d then 4 else 6))%Z).
Proof.
  intros H. unfold sendToSlack_request in H.
  destruct (new_URL url) as [u|]; [|discriminate].
  destruct (valid_request_path (pathname u)); [|discriminate].
  injection H as <-.
  transitivity (Some (HNum (Z.of_nat
    (utf16_length (JSON_stringify (formatCountdownMessage d)))))); [reflexivity|].
  cbn [req_body]. do 2 f_equal.
  pose proof (delta_JSON_stringify (formatCountdownMessage d)) as E.
  unfold delta in E.
  enough (json_delta (formatCountdownMessage d)
          = if hasStarted d then 4%Z else 6%Z) by (destruct (hasStarted d); lia).
  unfold formatCountdownMessage.
  destruct (hasStarted d).
  - reflexivity.
  - cbn [json_delta fold_right fst snd].
    rewrite !delta_app, delta_Z_to_string, delta_formattedTime.
    vm_compute. reflexivity.
Qed.


(** ** Further properties: driver *)

(** The repeating timer is cancelled only by a SIGINT, or by the
    successful delivery of a tick that computed [hasStarted = true]: a
    timer firing, a tick before the target or a failed delivery never
    cancels it. *)
Theorem timer_cancelled_only_when_started_or_sigint (p : Proc) (inp : input) :
  armed p = true ->
  armed (step p inp) = false ->
  exited p = None
  /\ (inp = SIGINT
      \/ exists i net tr msg v,
           inp = Settles i net
           /\ nth_error (inflight p) i = Some (tr, msg)
           /\ hasStarted tr = true
           /\ snd (sendToSlack (webhook p) msg net) = Resolved v).
Proof.
  intros Ha Ha'.
  destruct (exited p) as [code|] eqn:He.
  { unfold step in Ha'. rewrite (ended_exited p code He) in Ha'. congruence. }
  split; [reflexivity|].
  pose proof (ended_armed p He Ha) as Hend.
  destruct inp as [now|i net|]; [| |now left].
  - unfold step in Ha'. rewrite Hend, Ha in Ha'.
    unfold updateCountdown_start in Ha'. cbn [armed] in Ha'. congruence.
  - destruct (nth_error (inflight p) i) as [[tr msg]|] eqn:Hn.
    + destruct (step_settles p i net tr msg He Hn) as (logs & _ & _ & _ & _ & _ & Ea).
      rewrite Ea in Ha'. right.
      destruct (snd (sendToSlack (webhook p) msg net)) as [v|e] eqn:Es.
      * destruct (hasStarted tr) eqn:Hs; [|congruence].
        exists i, net, tr, msg, v. auto.
      * congruence.
    + unfold step in Ha'. rewrite Hend, Hn in Ha'. congruence.
Qed.

(** A non-empty webhook URL that [new URL] rejects (say "not-a-url")
    passes the start-up check, but then no request is ever issued and,
    since every delivery is rejected, the interval is never cleared: until
    a SIGINT the process neither exits nor ends, and keeps ticking. *)
Theorem invalid_url_never_delivers (url : string) (now : Z) (inputs : list input) :
  url <> "" -> new_URL url = None ->
  existsb is_sigint inputs = false ->
  let p := run inputs (startup (Some url) now) in
  armed p = true /\ exited p = None /\ ended p = false
  /\ forallb issues_no_request (trace p) = true.
Proof.
  intros Hne Hu Hs p.
  assert (H0 : bad_url_invariant url (startup (Some url) now)
               /\ exited (startup (Some url) now) = None).
  { unfold startup. apply String.eqb_neq in Hne. rewrite Hne.
    unfold bad_url_invariant. cbn.
    unfold sendToSlack_request. rewrite Hu. repeat split; auto. }
  destruct H0 as [H0 He0].
  assert (Hrun : forall q, bad_url_invariant url q ->
            bad_url_invariant url (run inputs q)).
  { clear - Hu. induction inputs as [|inp inputs IH]; intros q Hq; [exact Hq|].
    rewrite run_cons. apply IH, step_bad_url; assumption. }
  destruct (Hrun _ H0) as (_ & Ha & Ht).
  assert (He : exited p = None).
  { subst p. now rewrite run_exited_no_sigint by exact Hs. }
  assert (Ha' : armed p = true) by (exact (Ha He)).
  repeat split; auto.
  now apply ended_armed.
Qed.

(** Once the interval is cleared, the process ends with its last pending
    delivery: when that delivery resolves for a tick that computed
    [hasStarted = true], nothing is pending and the interval is cleared,
    so Node's event loop is empty and the process ends without calling
    [process.exit] (status 0); no later input changes it. *)
Theorem last_started_delivery_ends_process
  (p : Proc) (tr : TimeRemaining) (msg : json) (net : net_result) (v : string) :
  exited p = None ->
  inflight p = [(tr, msg)] ->
  hasStarted tr = true ->
  snd (sendToSlack (webhook p) msg net) = Resolved v ->
  let q := step p (Settles 0 net) in
  ended q = true /\ exited q = None /\ armed q = false /\ inflight q = []
  /\ forall inputs, run inputs q = q.
Proof.
  intros He Hin Hst Hv q.
  assert (Hn : nth_error (inflight p) 0 = Some (tr, msg)) by (now rewrite Hin).
  destruct (step_settles p 0 net tr msg He Hn) as (logs & _ & Ee & _ & Ei & _ & Ea).
  rewrite Hv, Hst in Ea. rewrite Hin in Ei. cbn in Ei.
  assert (Hq : ended q = true) by (unfold ended; subst q; rewrite Ee, Ea, Ei; reflexivity).
  repeat split; auto.
  intros inputs. now apply run_ended.
Qed.

End Program.

(** ** Witnesses and counterexamples

    Closed instances, with the ASCII-host instance of [IDNA]: every URL
    below is ASCII without an IDNA label, so UTS #46 is never consulted. *)

(** C4, as stated, fails: a non-200 response rejects with
    [new Error("Slack API returned status <code>")], which does not carry
    the response body: two 429 responses with different bodies reject with
    the same value, so no function of the rejection recovers the body. *)
Lemma sendToSlack_rejection_without_body :
  ~ (exists body_of : js_error -> string,
       forall statusCode chunks, statusCode <> 200%Z ->
       exists e, snd (sendToSlack slack_url
                        (formatCountdownMessage (mkTimeRemaining 0 0 0 0 true))
                        (NetResponse statusCode chunks)) = Rejected e
                 /\ body_of e = String.concat "" chunks).
Proof.
  intros [body_of H].
  destruct (H 429%Z ["a"] ltac:(discriminate)) as [e1 [E1 B1]].
  destruct (H 429%Z ["b"] ltac:(discriminate)) as [e2 [E2 B2]].
  vm_compute in E1, E2.
  injection E1 as <-. injection E2 as <-.
  rewrite B1 in B2. discriminate.
Qed.

Lemma sendToSlack_outcomes_witness :
  exists req,
    sendToSlack_request slack_url
      (formatCountdownMessage (mkTimeRemaining 0 0 0 0 true)) = Some req
    /\ sendToSlack slack_url
         (formatCountdownMessage (mkTimeRemaining 0 0 0 0 true))
         (NetResponse 429 ["rate_limited"])
       = (Some req, [LogError "Slack API error: 429 - rate_limited"],
          Rejected (Error "Slack API returned status 429")).
Proof.
  eexists. split; [reflexivity|].
  exact (proj1 (proj2 (sendToSlack_outcomes slack_url
                         (formatCountdownMessage (mkTimeRemaining 0 0 0 0 true))
                         _ eq_refl))
           429%Z ["rate_limited"] ltac:(discriminate)).
Defined.

(** C6, as stated, fails: when the tick that computes [hasStarted = true]
    has its delivery rejected (here a 500 response), the interval is not
    cleared and the timer starts a further tick a minute later. *)
Lemma reached_tick_failed_delivery_keeps_ticking :
  let p := run [Settles 0 (NetResponse 500 ["server_error"]);
                TimerFires (TARGET_DATE + UPDATE_INTERVAL)]
               (startup (Some slack_url) TARGET_DATE) in
  hasStarted (getTimeRemaining TARGET_DATE TARGET_DATE) = true
  /\ armed p = true /\ ticks p = 2%nat.
Proof. vm_compute. auto. Qed.

Lemma reached_tick_stops_after_successful_delivery_witness :
  armed (step (startup (Some slack_url) TARGET_DATE)
              (Settles 0 (NetResponse 200 ["ok"]))) = false.
Proof.
  apply (proj1 (reached_tick_stops_after_successful_delivery
           (startup (Some slack_url) TARGET_DATE) 0
           (getTimeRemaining TARGET_DATE TARGET_DATE)
           (formatCountdownMessage (getTimeRemaining TARGET_DATE TARGET_DATE))
           (NetResponse 200 ["ok"]) eq_refl eq_refl eq_refl)).
  exists "ok". vm_compute. reflexivity.
Defined.

Lemma failed_delivery_is_recovered_witness :
  armed (step (startup (Some slack_url) 0) (Settles 0 (NetError "ECONNREFUSED")))
  = true.
Proof.
  exact (proj1 (failed_delivery_is_recovered
           (startup (Some slack_url) 0) 0
           (getTimeRemaining 0 TARGET_DATE)
           (formatCountdownMessage (getTimeRemaining 0 TARGET_DATE))
           (NetError "ECONNREFUSED") eq_refl eq_refl eq_refl
           (or_introl (ex_intro _ "ECONNREFUSED" eq_refl)))).
Defined.

(** C8, as stated, fails: a variable that is present but empty is falsy for
    [!SLACK_WEBHOOK_URL], so the process exits with status 1 and no tick
    runs. *)
Lemma startup_empty_webhook_exits :
  exited (startup (Some "") 0) = Some 1%Z /\ ticks (startup (Some "") 0) = 0%nat.
Proof. split; reflexivity. Qed.

Lemma startup_configuration_witness :
  ticks (startup (Some slack_url) 0) = 1%nat.
Proof.
  exact (proj1 (proj2 (proj2 (proj2 (startup_configuration (Some slack_url) 0)
           slack_url eq_refl ltac:(discriminate))))).
Defined.

Lemma sendToSlack_content_length_shortfall_witness :
  exists req,
    sendToSlack_request slack_url (formatCountdownMessage (mkTimeRemaining 2 3 4 5 false))
    = Some req
    /\ header "Content-Length" req
       = Some (HNum (Z.of_nat (byte_length (req_body req)) - 6)%Z).
Proof.
  eexists. split; [reflexivity|].
  exact (sendToSlack_content_length_shortfall slack_url
           (mkTimeRemaining 2 3 4 5 false) _ eq_refl).
Defined.

Lemma timer_cancelled_only_when_started_or_sigint_witness :
  exited (startup (Some slack_url) TARGET_DATE) = None.
Proof.
  exact (proj1 (timer_cancelled_only_when_started_or_sigint
           (startup (Some slack_url) TARGET_DATE) (Settles 0 (NetResponse 200 ["ok"]))
           eq_refl eq_refl)).
Defined.

Lemma invalid_url_never_delivers_witness :
  armed (run [Settles 0 (NetResponse 200 ["ok"]); TimerFires 60000]
             (startup (Some "not-a-url") TARGET_DATE)) = true.
Proof.
  exact (proj1 (invalid_url_never_delivers "not-a-url" TARGET_DATE
           [Settles 0 (NetResponse 200 ["ok"]); TimerFires 60000]
           ltac:(discriminate) eq_refl eq_refl)).
Defined.

Lemma sendToSlack_drops_query_witness :
  sendToSlack_request "https://hooks.slack.com/services/T000/B000/XXXX?channel=general"
    (formatCountdownMessage (mkTimeRemaining 0 0 0 0 true))
  = sendToSlack_request slack_url
      (formatCountdownMessage (mkTimeRemaining 0 0 0 0 true)).
Proof.
  apply (proj1 (proj2 (sendToSlack_drops_query
     (formatCountdownMessage (mkTimeRemaining 0 0 0 0 true))))
     slack_url "?channel=general").
  - vm_compute. reflexivity.
  - exists "https://hooks.slack.com/services/T000/B000/XXX", "X"%char.
    split; [reflexivity | apply Nat.ltb_lt; reflexivity].
  - exists "?"%char, "channel=general". split; reflexivity.
Defined.


Lemma last_started_delivery_ends_process_witness :
  ended (step (startup (Some slack_url) TARGET_DATE) (Settles 0 (NetResponse 200 ["ok"])))
  = true.
Proof.
  exact (proj1 (last_started_delivery_ends_process (startup (Some slack_url) TARGET_DATE)
     (getTimeRemaining TARGET_DATE TARGET_DATE)
     (formatCountdownMessage (getTimeRemaining TARGET_DATE TARGET_DATE))
     (NetResponse 200 ["ok"]) "ok" eq_refl eq_refl eq_refl
     ltac:(vm_compute; reflexivity))).
Defined.
